(** * nekkus-net: the site prober, the launcher and the Windows process hook

    A shallow embedding of three pieces of the repository:
    - package [sitecheck] (outbound availability prober),
    - [main.go] (flag handling and the choice between the hub and the
      standalone start-up path),
    - [internal/vpn/process_windows.go] (the hook that hides the console of
      a child process).

    Go values are modelled as the code has them: [int], [int64] and
    [time.Duration] as [Z], [[]byte] as [list byte], [string] as the byte
    string [string], a nil-able pointer as [option], structs as records.
    What the Go standard library and the operating system do is supplied by
    lawless interfaces ([Strings], [Runtime], [Platform]): every theorem
    holds for every implementation of them. *)

From Stdlib Require Import ZArith String Ascii Strings.Byte List Bool Lia.
From stdpp Require Import base tactics option list gmap strings fin_maps.

Local Open Scope string_scope.
Local Open Scope list_scope.
Local Open Scope Z_scope.

(* ===================================================================== *)
(** * Go values shared by the packages *)
(* ===================================================================== *)

Module Go.

(** An [error] value.  Sentinel errors are compared by identity in Go
    ([err == io.EOF]); every error has a message, which may be any
    string. *)
Inductive error : Type :=
| io_EOF
| http_ErrUseLastResponse
| errors_New (msg : string).

(** [err.Error()] *)
Definition Error (e : error) : string :=
  match e with
  | io_EOF => "EOF"
  | http_ErrUseLastResponse => "net/http: use last response"
  | errors_New msg => msg
  end.

(** A Go result pair [(v, err)] with [err != nil] exactly in [Fail]. *)
Inductive result (A : Type) : Type :=
| Ok (v : A)
| Fail (err : error).
Arguments Ok {A} v.
Arguments Fail {A} err.

(** [len(b)] for a byte slice, and [len(s)] for a string. *)
Definition len {A} (l : list A) : Z := Z.of_nat (length l).

(** [strings.HasPrefix(s, prefix)] *)
Definition HasPrefix (s prefix : string) : bool := String.prefix prefix s.

(** [strings.Contains(s, substr)]: [substr] occurs in [s] as a run of
    bytes. *)
Fixpoint Contains (s substr : string) : bool :=
  HasPrefix s substr ||
  match s with
  | EmptyString => false
  | String _ rest => Contains rest substr
  end.

(** The part of package [strings] that depends on the Unicode tables. *)
Class Strings : Type := {
  ToLower : string -> string;
  TrimSpace : string -> string
}.

(** [strings.ToLower] on input that is ASCII only: the letters [A]..[Z]
    move to [a]..[z], every other byte stays. *)
Definition asciiLower (c : ascii) : ascii :=
  let n := nat_of_ascii c in
  if (Nat.leb 65 n && Nat.leb n 90)%bool then ascii_of_nat (n + 32) else c.

Fixpoint asciiToLower (s : string) : string :=
  match s with
  | EmptyString => EmptyString
  | String c rest => String (asciiLower c) (asciiToLower rest)
  end.

Definition asciiSpace (c : ascii) : bool :=
  let n := nat_of_ascii c in
  (Nat.eqb n 32 || (Nat.leb 9 n && Nat.leb n 13))%bool.

Fixpoint trimLeft (s : string) : string :=
  match s with
  | String c rest => if asciiSpace c then trimLeft rest else s
  | EmptyString => EmptyString
  end.

Fixpoint trimRight (s : string) : string :=
  match s with
  | EmptyString => EmptyString
  | String c rest =>
      match trimRight rest with
      | EmptyString => if asciiSpace c then EmptyString else String c EmptyString
      | t => String c t
      end
  end.

(** The instance used to run the model on ASCII input. *)
Definition asciiStrings : Strings :=
  {| ToLower := asciiToLower; TrimSpace := fun s => trimRight (trimLeft s) |}.

(** Is every byte of [s] below 128, so that [s] is ASCII text? *)
Fixpoint isASCII (s : string) : bool :=
  match s with
  | EmptyString => true
  | String c rest => Nat.ltb (nat_of_ascii c) 128 && isASCII rest
  end.

End Go.

(* ===================================================================== *)
(** * Package io: readers, [LimitReader], [ReadAll] *)
(* ===================================================================== *)

Module io.
Import Go.

(** A byte stream behind an [io.Reader]: the bytes it still delivers and
    the error that ends it ([io_EOF] for a clean end).  The [io.Reader]
    contract lets an implementation report the final error either
    together with the last bytes ([eager]) or by a later call that
    returns no bytes. *)
Record Reader : Type := mkReader {
  pending : list byte;
  final : error;
  eager : bool
}.

(** [r.Read(p)] with [len(p) = n]: the bytes stored, the error, and the
    reader afterwards. *)
Definition Read (r : Reader) (n : nat) : list byte * option error * Reader :=
  if eager r then
    if Nat.leb (length (pending r)) n
    then (pending r, Some (final r), mkReader [] (final r) (eager r))
    else (take n (pending r), None, mkReader (drop n (pending r)) (final r) (eager r))
  else
    match pending r with
    | [] => ([], Some (final r), r)
    | _ => (take n (pending r), None, mkReader (drop n (pending r)) (final r) (eager r))
    end.

(** [io.LimitedReader] *)
Record LimitedReader : Type := mkLimitedReader {
  R : Reader;
  N : Z
}.

(** [io.LimitReader(r, n)] *)
Definition LimitReader (r : Reader) (n : Z) : LimitedReader := mkLimitedReader r n.

(** [(l *LimitedReader).Read(p)] with [len(p) = n] *)
Definition LimitedReader_Read (l : LimitedReader) (n : nat)
  : list byte * option error * LimitedReader :=
  if N l <=? 0 then ([], Some io_EOF, l)
  else
    let n := if Z.of_nat n >? N l then Z.to_nat (N l) else n in
    let '(data, err, r) := Read (R l) n in
    (data, err, mkLimitedReader r (N l - len data)).

(** [if err == EOF { err = nil }] *)
Definition nonEOF (err : error) : option error :=
  match err with
  | io_EOF => None
  | _ => Some err
  end.

Section ReadAll.
(** The capacity [append] chooses when the buffer is full; the runtime
    only promises that it grows. *)
Variable grow : nat -> nat.

(** The loop of [io.ReadAll]: [b] is the buffer, [cap] its capacity.
    One unit of fuel is one iteration. *)
Fixpoint ReadAll_loop (fuel : nat) (l : LimitedReader) (b : list byte) (cap : nat)
  : option (list byte * option error) :=
  match fuel with
  | O => None
  | S fuel =>
      let '(data, err, l) := LimitedReader_Read l (cap - length b) in
      let b := b ++ data in
      match err with
      | Some err => Some (b, nonEOF err)
      | None =>
          let cap := if Nat.eqb (length b) cap then grow cap else cap in
          ReadAll_loop fuel l b cap
      end
  end.
End ReadAll.

(** [io.ReadAll(l)].  The buffer starts with capacity 512.  Every
    iteration that does not return consumes a byte of the stream, so
    the fuel given here is never used up ([ReadAll_loop_fuel]). *)
Definition ReadAll (l : LimitedReader) : list byte * option error :=
  match ReadAll_loop (fun cap => 2 * cap)%nat (S (length (pending (R l)))) l [] 512 with
  | Some res => res
  | None => ([], None)
  end.

(** The error [ReadAll] reports for a limited reader, in closed form:
    the error that ends the stream, unless it is [io.EOF] or the limit
    cuts the stream off before that error is delivered. *)
Definition limitedErr (l : LimitedReader) : option error :=
  let size := len (pending (R l)) in
  if (0 <? N l) && ((size <? N l) || ((size =? N l) && eager (R l)))
  then nonEOF (final (R l)) else None.

End io.

(* ===================================================================== *)
(** * Package net/http: the values [sitecheck] handles *)
(* ===================================================================== *)

Module http.
Import Go.

(** [context.Context]: an interface value, nil or a handle to a context
    that the runtime interprets (deadline, cancellation). *)
Inductive Context : Type :=
| nilContext
| context (handle : nat).

(** [http.Header] *)
Definition Header : Type := gmap string (list string).

(** [*http.Request], as far as [checkOne] builds it. *)
Record Request : Type := mkRequest {
  req_ctx : Context;
  Method : string;
  req_URL : string;
  req_Header : Header
}.

(** [req.Header.Set(key, value)] for a key in canonical form. *)
Definition Header_Set (req : Request) (key value : string) : Request :=
  mkRequest (req_ctx req) (Method req) (req_URL req) (<[key := [value]]> (req_Header req)).

(** [http.Client].  [Transport] and [Jar] are handles to objects of the
    library; nil selects the library default. *)
Record Client : Type := mkClient {
  Transport : option nat;
  CheckRedirect : option (Request -> list Request -> error);
  Jar : option nat;
  Timeout : Z
}.

(** [*http.Response]: status line and the body stream. *)
Record Response : Type := mkResponse {
  Status : string;
  StatusCode : Z;
  Body : io.Reader
}.

Definition MethodGet : string := "GET".

(** What the process sees of the outside: the clock and the network.
    [World] is the state of everything outside the program. *)
Class Runtime (World : Type) : Type := {
  (** [time.Now()], monotonic, in nanoseconds *)
  time_Now : World -> Z;
  (** [http.NewRequestWithContext(ctx, method, url, nil)] *)
  NewRequestWithContext : Context -> string -> string -> result Request;
  (** [client.Do(req)] *)
  Do : Client -> Request -> World -> result Response * World
}.

(** What net/http documents of [Client.Timeout]: a positive [Timeout]
    is a time limit for the whole exchange made by [client.Do]; zero
    means no timeout, and the library sets no deadline for a negative
    one either.  An instance of [Runtime] need not have this property;
    it is assumed where a statement says so. *)
Definition honoursTimeout {World : Type} (RT : Runtime World) : Prop :=
  forall client req w,
    0 < Timeout client ->
    time_Now (snd (Do client req w)) - time_Now w <= Timeout client.

End http.

(* ===================================================================== *)
(** * Package sitecheck *)
(* ===================================================================== *)

Module sitecheck.
Import Go http.

Record Site : Type := mkSite {
  Name : string;
  URL : string
}.

Definition DefaultSites : list Site := [
  {| Name := "ChatGPT"; URL := "https://chat.openai.com" |};
  {| Name := "Gemini"; URL := "https://gemini.google.com" |};
  {| Name := "Claude"; URL := "https://claude.ai" |};
  {| Name := "Google"; URL := "https://www.google.com" |};
  {| Name := "YouTube"; URL := "https://www.youtube.com" |};
  {| Name := "Netflix"; URL := "https://www.netflix.com" |}
].

Module Result.
Record t : Type := mk {
  Name : string;
  URL : string;
  OK : bool;
  LatencyMs : Z;
  Error : string
}.
End Result.
Abbreviation Result := Result.t.

Definition blockPhrases : list string := [
  "isn't available";
  "not available in your";
  "not available in this";
  "service is not available";
  "service isn't available";
  "unavailable in your";
  "unavailable in this";
  "access restricted";
  "доступ ограничен";
  "недоступен";
  "не доступен";
  "в вашем регионе";
  "в этой стране";
  "georestrict";
  "blocked in your";
  "blocked in this";
  "sorry, we're having trouble";
  "this service is not available";
  "not available in your country";
  "not available in your region";
  "content is not available";
  "video unavailable";
  "redirected you too many times";
  "connection refused";
  "check your connection";
  "something went wrong";
  "error code";
  "попробуйте позже";
  "временно недоступен"
].

Definition maxBodyCheck : Z := 128 * 1024.
Definition minBodySize : Z := 2000.

(** The return statements of [checkOne], in source order. *)
Inductive Exit : Type :=
| ExitNewRequest   (* NewRequestWithContext failed *)
| ExitDo           (* client.Do failed *)
| ExitStatus       (* status code outside 200..399 *)
| ExitRead         (* reading the body failed *)
| ExitShort        (* body shorter than minBodySize *)
| ExitPhrase       (* a block phrase occurs in the body *)
| ExitOK.

(** The [range blockPhrases] loop of [checkOne]: does it reach its
    [return], that is, does [strings.Contains(bodyStr, phrase)] hold for
    some phrase? *)
Fixpoint rangePhrases (bodyStr : string) (phrases : list string) : bool :=
  match phrases with
  | [] => false
  | phrase :: rest =>
      if Contains bodyStr phrase then true else rangePhrases bodyStr rest
  end.

Section WithRuntime.
Context {STR : Strings} {World : Type} {RT : Runtime World}.

(** [checkOne], each result paired with the return statement that
    produced it.  [time.Since(start).Milliseconds()] is the clock
    difference in nanoseconds divided by 10^6, rounded toward zero.
    The deferred [resp.Body.Close()] has no part in the result. *)
Definition checkOneAt (ctx : Context) (client : Client) (site : Site) (timeout : Z)
    (w : World) : Exit * Result * World :=
  let start := time_Now w in
  match NewRequestWithContext ctx MethodGet (URL site) with
  | Fail err =>
      (ExitNewRequest,
       {| Result.Name := Name site; Result.URL := URL site; Result.OK := false;
          Result.LatencyMs := 0;
          Result.Error := Error err |}, w)
  | Ok req =>
      let req := Header_Set req "User-Agent"
        "Mozilla/5.0 (Windows NT 10.0; rv:131.0) Gecko/20100101 Firefox/131.0" in
      let req := Header_Set req "Accept"
        "text/html,application/xhtml+xml,application/xml;q=0.9,*/*;q=0.8" in
      let '(resp, w) := Do client req w in
      let elapsed := Z.quot (time_Now w - start) 1000000 in
      match resp with
      | Fail err =>
          (ExitDo,
           {| Result.Name := Name site; Result.URL := URL site; Result.OK := false;
              Result.LatencyMs := elapsed;
              Result.Error := Error err |}, w)
      | Ok resp =>
          if (StatusCode resp <? 200) || (StatusCode resp >=? 400) then
            (ExitStatus,
             {| Result.Name := Name site; Result.URL := URL site; Result.OK := false;
                Result.LatencyMs := elapsed;
                Result.Error := "HTTP " +:+ Status resp |}, w)
          else
            let '(body, err) := io.ReadAll (io.LimitReader (Body resp) maxBodyCheck) in
            match err with
            | Some err =>
                (ExitRead,
                 {| Result.Name := Name site; Result.URL := URL site; Result.OK := false;
                    Result.LatencyMs := elapsed;
                    Result.Error := Error err |}, w)
            | None =>
                if len body <? minBodySize then
                  (ExitShort,
                   {| Result.Name := Name site; Result.URL := URL site; Result.OK := false;
                      Result.LatencyMs := elapsed;
                      Result.Error :=
                        "недоступен (слишком короткий ответ, возможно заглушка)" |}, w)
                else
                  let bodyStr := ToLower (string_of_list_byte body) in
                  if rangePhrases bodyStr blockPhrases then
                    (ExitPhrase,
                     {| Result.Name := Name site; Result.URL := URL site; Result.OK := false;
                        Result.LatencyMs := elapsed;
                        Result.Error := "недоступен (блок по региону или заглушка)" |}, w)
                  else
                    (ExitOK,
                     {| Result.Name := Name site; Result.URL := URL site; Result.OK := true;
                        Result.LatencyMs := elapsed; Result.Error := "" |}, w)
            end
      end
  end.

Definition checkOne (ctx : Context) (client : Client) (site : Site) (timeout : Z)
    (w : World) : Result * World :=
  let '(_, r, w) := checkOneAt ctx client site timeout w in (r, w).

(** The request as [checkOne] hands it to [client.Do]: the one
    [NewRequestWithContext] made, with the two headers set. *)
Definition sentRequest (req : Request) : Request :=
  Header_Set
    (Header_Set req "User-Agent"
       "Mozilla/5.0 (Windows NT 10.0; rv:131.0) Gecko/20100101 Firefox/131.0")
    "Accept" "text/html,application/xhtml+xml,application/xml;q=0.9,*/*;q=0.8".

(** [CheckOne] *)
Definition CheckOne (ctx : Context) (client : Client) (site : Site) (timeout : Z)
    (w : World) : Result * World :=
  checkOne ctx client site timeout w.

(** The [range sites] loop of [Check]; [results] is the slice built so
    far. *)
Fixpoint rangeSites (ctx : Context) (client : Client) (sites : list Site) (timeout : Z)
    (results : list Result) (w : World) : list Result * World :=
  match sites with
  | [] => (results, w)
  | site :: rest =>
      let '(r, w) := checkOne ctx client site timeout w in
      rangeSites ctx client rest timeout (results ++ [r]) w
  end.

(** [Check].  A nil [client] is replaced by a client built on the spot;
    the results are collected in the order of [sites]. *)
Definition Check (ctx : Context) (client : option Client) (sites : list Site)
    (timeout : Z) (w : World) : list Result * World :=
  let client :=
    match client with
    | None =>
        {| Transport := None;
           CheckRedirect := Some (fun req via => http_ErrUseLastResponse);
           Jar := None;
           Timeout := timeout |}
    | Some client => client
    end in
  rangeSites ctx client sites timeout [] w.

(** The [range DefaultSites] loops of [SiteByURL] and [SiteByName]:
    [i] is the index of the head of [sites]; the result is the index
    the returned pointer [&DefaultSites[i]] refers to, or [None] for
    nil. *)
Fixpoint rangeByURL (url : string) (i : nat) (sites : list Site) : option nat :=
  match sites with
  | [] => None
  | site :: rest =>
      if String.eqb (URL site) url then Some i else rangeByURL url (S i) rest
  end.

Definition SiteByURL (url : string) : option nat := rangeByURL url 0 DefaultSites.

Fixpoint rangeByName (lower : string) (i : nat) (sites : list Site) : option nat :=
  match sites with
  | [] => None
  | site :: rest =>
      if String.eqb (ToLower (Name site)) lower then Some i
      else rangeByName lower (S i) rest
  end.

Definition SiteByName (name : string) : option nat :=
  let lower := ToLower name in
  rangeByName lower 0 DefaultSites.

(** The request [checkOne] sends for [site]: none when
    [NewRequestWithContext] fails. *)
Definition requestFor (ctx : Context) (site : Site) : option Request :=
  match NewRequestWithContext ctx MethodGet (URL site) with
  | Ok req => Some (sentRequest req)
  | Fail _ => None
  end.

End WithRuntime.

(** A runtime that behaves like [RT] and keeps, next to the world, the
    list of the calls of [client.Do]: the client each was made on and
    the request. *)
Definition recording {World : Type} (RT : Runtime World)
  : Runtime (World * list (Client * Request)) :=
  {| time_Now := fun w => time_Now (fst w);
     NewRequestWithContext := NewRequestWithContext;
     Do := fun client req w =>
       let '(resp, w') := Do client req (fst w) in
       (resp, (w', snd w ++ [(client, req)])) |}.

End sitecheck.

(* ===================================================================== *)
(** * Packages syscall and os/exec: the values the process hook handles *)
(* ===================================================================== *)

Module syscall.

(** [syscall.SysProcAttr] on Windows.  Handles and pointers are
    addresses; the zero value of a field is [false], [""], [0], [None]
    or [[]]. *)
Record SysProcAttr : Type := mkSysProcAttr {
  HideWindow : bool;
  CmdLine : string;
  CreationFlags : Z;
  Token : Z;
  ProcessAttributes : option nat;
  ThreadAttributes : option nat;
  NoInheritHandles : bool;
  AdditionalInheritedHandles : list Z;
  ParentProcess : Z
}.

End syscall.

Module exec.

(** [exec.Cmd], its exported fields.  [SysProcAttr] is a pointer to a
    struct of its own; files, the process and the cancel function are
    handles. *)
Record Cmd : Type := mkCmd {
  Path : string;
  Args : list string;
  Env : list string;
  Dir : string;
  Stdin : option nat;
  Stdout : option nat;
  Stderr : option nat;
  ExtraFiles : list nat;
  SysProcAttr : option syscall.SysProcAttr;
  Process : option nat;
  ProcessState : option nat;
  Err : option Go.error;
  Cancel : option nat;
  WaitDelay : Z
}.

End exec.

(* ===================================================================== *)
(** * Package vpn: the Windows process hook *)
(* ===================================================================== *)

Module vpn.
Import syscall exec.

(** [&syscall.SysProcAttr{HideWindow: true}]: a fresh struct, every
    field but [HideWindow] at its zero value. *)
Definition hideWindowAttr : syscall.SysProcAttr :=
  {| HideWindow := true; CmdLine := ""; CreationFlags := 0; Token := 0;
     ProcessAttributes := None; ThreadAttributes := None; NoInheritHandles := false;
     AdditionalInheritedHandles := []; ParentProcess := 0 |}.

(** The assignment [cmd.SysProcAttr = attr] on the struct [cmd] points
    to. *)
Definition assign_SysProcAttr (attr : option syscall.SysProcAttr) (cmd : Cmd) : Cmd :=
  {| Path := Path cmd; Args := Args cmd; Env := Env cmd; Dir := Dir cmd;
     Stdin := Stdin cmd; Stdout := Stdout cmd; Stderr := Stderr cmd;
     ExtraFiles := ExtraFiles cmd; SysProcAttr := attr; Process := Process cmd;
     ProcessState := ProcessState cmd; Err := Err cmd; Cancel := Cancel cmd;
     WaitDelay := WaitDelay cmd |}.

(** [setProcessNoWindow].  [cmd] is a pointer: nil or the address of a
    command in the store [heap] of allocated [exec.Cmd] values. *)
Definition setProcessNoWindow (cmd : option nat) (heap : gmap nat Cmd) : gmap nat Cmd :=
  match cmd with
  | Some addr => alter (assign_SysProcAttr (Some hideWindowAttr)) addr heap
  | None => heap
  end.

End vpn.

(* ===================================================================== *)
(** * Package main *)
(* ===================================================================== *)

Module main.
Import Go.

(** [BackendOptions], with the fields [main] fills in. *)
Record BackendOptions : Type := mkBackendOptions {
  Mode : string;
  GRPCAddr : string;
  HTTPAddr : string;
  DataDir : string;
  HubAddr : string;
  ModuleID : string;
  Version : string;
  StartHTTP : bool
}.

(** What the process does to the outside, in order. *)
Inductive Event : Type :=
| EvRunBackend (opts : BackendOptions)
| EvGoWaitForShutdown (grpcServer : nat)
| EvWaitForShutdown (grpcServer : nat)
| EvGracefulStop (grpcServer : nat)
| EvApplicationNew (name description : string)
| EvWindowNew (title url : string)
| EvOnWindowClosingQuit
| EvAppRun
| EvLogFatal (err : error).

(** The process state [main] acts on: the environment variables and the
    calls made so far. *)
Record OS : Type := mkOS {
  environ : gmap string string;
  trace : list Event
}.

(** A run either returns or ends the process ([log.Fatal] exits with
    status 1). *)
Inductive Outcome (A : Type) : Type :=
| Return (a : A)
| Exited (code : Z).
Arguments Return {A} a.
Arguments Exited {A} code.

Definition Proc (A : Type) : Type := OS -> Outcome A * OS.

Definition bind {A B} (m : Proc A) (f : A -> Proc B) : Proc B :=
  fun os =>
    match m os with
    | (Return a, os) => f a os
    | (Exited code, os) => (Exited code, os)
    end.

#[global] Instance Proc_ret : MRet Proc := fun A a os => (Return a, os).
#[global] Instance Proc_bind : MBind Proc := fun A B f m => bind m f.

Notation "'let*' x ':=' m 'in' k" := (bind m (fun x => k))
  (at level 10, x name, m at level 100, k at level 200).

Definition emit (e : Event) : Proc unit :=
  fun os => (Return tt, mkOS (environ os) (trace os ++ [e])).

(** An answer of the outside that depends on the environment. *)
Definition ask {A} (answer : gmap string string -> A) : Proc A :=
  fun os => (Return (answer (environ os)), os).

(** [os.Getenv], [os.Setenv], [os.Unsetenv], [os.Environ] *)
Definition os_Getenv (key : string) : Proc string :=
  fun os => (Return (default "" (environ os !! key)), os).

Definition os_Setenv (key value : string) : Proc unit :=
  fun os => (Return tt, mkOS (<[key := value]> (environ os)) (trace os)).

Definition os_Unsetenv (key : string) : Proc unit :=
  fun os => (Return tt, mkOS (delete key (environ os)) (trace os)).

Definition os_Environ : Proc (list string) :=
  fun os => (Return ((fun kv => fst kv +:+ "=" +:+ snd kv) <$> map_to_list (environ os)), os).

(** [log.Fatal(err)] *)
Definition log_Fatal {A} (err : error) : Proc A :=
  fun os => (Exited 1, mkOS (environ os) (trace os ++ [EvLogFatal err])).

(** [strings.SplitN(entry, "=", 2)[0]]: the text before the first [=]. *)
Fixpoint SplitN_eq_2_first (entry : string) : string :=
  match entry with
  | EmptyString => EmptyString
  | String c rest =>
      if Ascii.eqb c "="%char then EmptyString else String c (SplitN_eq_2_first rest)
  end.

(** The values given on the command line for the flags [mode], [ui],
    [addr], [http-addr], [data-dir], [hub-addr], [module-id] and
    [version], after [flag.Parse] accepted it; [None] is a flag that was
    not given. *)
Record CommandLine : Type := mkCommandLine {
  arg_mode : option string;
  arg_ui : option bool;
  arg_addr : option string;
  arg_http_addr : option string;
  arg_data_dir : option string;
  arg_hub_addr : option string;
  arg_module_id : option string;
  arg_version : option string
}.

(** The value of a flag after [flag.Parse]: what was given, else the
    default it was defined with. *)
Definition flagValue {A} (given : option A) (dflt : A) : A := default dflt given.

(** The declarations of package [main] that [main.go] uses and that live
    in other files of the package: the default constants, and what
    [RunBackend] and the UI toolkit's [app.Run] answer. *)
Class Platform : Type := {
  defaultListenAddr : string;
  defaultHTTPAddr : string;
  defaultDataDir : string;
  defaultModuleID : string;
  defaultVersion : string;
  RunBackend_returns : BackendOptions -> gmap string string -> result nat;
  app_Run_returns : gmap string string -> option error
}.

Section WithPlatform.
Context {STR : Strings} {PF : Platform}.

(** [RunBackend(opts)] *)
Definition RunBackend (opts : BackendOptions) : Proc (result nat) :=
  emit (EvRunBackend opts) ;;
  ask (RunBackend_returns opts).

(** [go waitForShutdown(grpcServer)] and [waitForShutdown(grpcServer)] *)
Definition go_waitForShutdown (grpcServer : nat) : Proc unit :=
  emit (EvGoWaitForShutdown grpcServer).

Definition waitForShutdown (grpcServer : nat) : Proc unit :=
  emit (EvWaitForShutdown grpcServer).

Definition GracefulStop (grpcServer : nat) : Proc unit :=
  emit (EvGracefulStop grpcServer).

Definition runWailsUI : Proc unit :=
  emit (EvApplicationNew "nekkus VPN" "nekkus VPN standalone module") ;;
  emit (EvWindowNew "nekkus VPN" "/") ;;
  emit EvOnWindowClosingQuit ;;
  emit EvAppRun ;;
  let* err := ask app_Run_returns in
  match err with
  | Some err => log_Fatal err
  | None => mret tt
  end.

Definition shouldShowUIFromEnv : Proc bool :=
  let* v := os_Getenv "NEKKUS_SHOW_UI" in
  let value := TrimSpace (ToLower v) in
  if String.eqb value "" then mret false
  else mret (String.eqb value "1" || String.eqb value "true" ||
             String.eqb value "yes" || String.eqb value "on").

(** The [range os.Environ()] loop of [clearDevServerEnv] *)
Fixpoint rangeEnviron (entries : list string) : Proc unit :=
  match entries with
  | [] => mret tt
  | entry :: rest =>
      let key := SplitN_eq_2_first entry in
      (if HasPrefix key "WAILS" || HasPrefix key "VITE"
       then os_Unsetenv key else mret tt) ;;
      rangeEnviron rest
  end.

Definition clearDevServerEnv : Proc unit :=
  let* entries := os_Environ in
  rangeEnviron entries.

Definition main (args : CommandLine) : Proc unit :=
  let mode := flagValue (arg_mode args) "standalone" in
  let showUI := flagValue (arg_ui args) false in
  let listenAddr := flagValue (arg_addr args) defaultListenAddr in
  let httpAddr := flagValue (arg_http_addr args) defaultHTTPAddr in
  let dataDir := flagValue (arg_data_dir args) defaultDataDir in
  let* envHubAddr := os_Getenv "NEKKUS_HUB_ADDR" in
  let hubAddr := flagValue (arg_hub_addr args) envHubAddr in
  let moduleID := flagValue (arg_module_id args) defaultModuleID in
  let version := flagValue (arg_version args) defaultVersion in
  let* showUI := (if negb showUI then shouldShowUIFromEnv else mret showUI) in
  if String.eqb mode "hub" then
    (if showUI then
       clearDevServerEnv ;;
       os_Setenv "WAILS_ENV" "production" ;;
       os_Setenv "WAILS_DEV_SERVER_URL" "" ;;
       os_Setenv "WAILS_VITE_DEV_SERVER_URL" "" ;;
       os_Setenv "WAILS_DEVSERVER_URL" "" ;;
       os_Setenv "VITE_DEV_SERVER_URL" ""
     else mret tt) ;;
    let startHTTP := showUI in
    let* r := RunBackend {| Mode := "hub"; GRPCAddr := listenAddr; HTTPAddr := httpAddr;
                            DataDir := dataDir; HubAddr := hubAddr; ModuleID := moduleID;
                            Version := version; StartHTTP := startHTTP |} in
    match r return Proc unit with
    | Fail err => log_Fatal err
    | Ok grpcServer =>
        if showUI return Proc unit then
          go_waitForShutdown grpcServer ;;
          runWailsUI ;;
          GracefulStop grpcServer ;;
          mret tt
        else
          waitForShutdown grpcServer ;;
          mret tt
    end
  else
    let* r := RunBackend {| Mode := "standalone"; GRPCAddr := listenAddr;
                            HTTPAddr := httpAddr; DataDir := dataDir; HubAddr := hubAddr;
                            ModuleID := moduleID; Version := version; StartHTTP := true |} in
    match r return Proc unit with
    | Fail err => log_Fatal err
    | Ok _ => runWailsUI
    end.

(** The options of the [RunBackend] call, as [main] fills them in
    from the flags; [os] is the process state at start-up. *)
Definition optionsOf (args : CommandLine) (os : OS) (mode : string) (startHTTP : bool)
  : BackendOptions :=
  {| Mode := mode;
     GRPCAddr := flagValue (arg_addr args) defaultListenAddr;
     HTTPAddr := flagValue (arg_http_addr args) defaultHTTPAddr;
     DataDir := flagValue (arg_data_dir args) defaultDataDir;
     HubAddr := flagValue (arg_hub_addr args)
                  (default "" (environ os !! "NEKKUS_HUB_ADDR"));
     ModuleID := flagValue (arg_module_id args) defaultModuleID;
     Version := flagValue (arg_version args) defaultVersion;
     StartHTTP := startHTTP |}.

(** The calls [runWailsUI] makes up to and including [app.Run()]. *)
Definition uiEvents : list Event :=
  [EvApplicationNew "nekkus VPN" "nekkus VPN standalone module";
   EvWindowNew "nekkus VPN" "/"; EvOnWindowClosingQuit; EvAppRun].

(** Does the text hold a [=]?  The name of an environment variable
    does not. *)
Fixpoint hasEq (s : string) : bool :=
  match s with
  | EmptyString => false
  | String c rest => Ascii.eqb c "="%char || hasEq rest
  end.

(** The test of [clearDevServerEnv] on a key. *)
Definition devServerKey (key : string) : bool :=
  HasPrefix key "WAILS" || HasPrefix key "VITE".

(** One round of the loop of [clearDevServerEnv], on the environment. *)
Definition clearStep (env : gmap string string) (entry : string) : gmap string string :=
  if devServerKey (SplitN_eq_2_first entry)
  then delete (SplitN_eq_2_first entry) env else env.

(** The environment after [clearDevServerEnv]: the rounds of its loop
    over the entries [os.Environ()] listed. *)
Definition cleared (env : gmap string string) : gmap string string :=
  foldl clearStep env ((fun kv => fst kv +:+ "=" +:+ snd kv) <$> map_to_list env).

(** The decision [main] settles on for the UI: the [ui] flag, and when
    that is false what [shouldShowUIFromEnv()] returns. *)
Definition showUIOf (args : CommandLine) (os : OS) : bool :=
  flagValue (arg_ui args) false ||
  match fst (shouldShowUIFromEnv os) with
  | Return b => b
  | Exited _ => false
  end.

(** The environment in which [main] calls [RunBackend] in hub mode. *)
Definition hubEnv (args : CommandLine) (os : OS) : gmap string string :=
  if showUIOf args os then
    <["VITE_DEV_SERVER_URL" := ""]>
      (<["WAILS_DEVSERVER_URL" := ""]>
         (<["WAILS_VITE_DEV_SERVER_URL" := ""]>
            (<["WAILS_DEV_SERVER_URL" := ""]>
               (<["WAILS_ENV" := "production"]> (cleared (environ os))))))
  else environ os.

End WithPlatform.

End main.

(* ===================================================================== *)
(** * Concrete inputs on which the model is run *)
(* ===================================================================== *)

Module sample.
Import Go.

(** A response body: [text], then [pad] filler bytes, then a clean end. *)
Definition page (text : string) (pad : nat) : io.Reader :=
  io.mkReader (list_byte_of_string text ++ repeat "x"%byte pad) io_EOF false.

(** A body whose first read fails with an error that has no message. *)
Definition brokenBody : io.Reader := io.mkReader [] (errors_New "") false.

(** A runtime whose world is the clock: a request is made for every
    non-nil context, every exchange takes 5.5 ms, and the network
    answers [answer]. *)
Definition scripted (answer : http.Client -> http.Request -> result http.Response)
  : http.Runtime Z :=
  {| http.time_Now := fun w => w;
     http.NewRequestWithContext := fun ctx method url =>
       match ctx with
       | http.nilContext => Fail (errors_New "net/http: nil Context")
       | _ => Ok (http.mkRequest ctx method url ∅)
       end;
     http.Do := fun client req w => (answer client req, w + 5500000) |}.

Definition always (status : string) (code : Z) (body : io.Reader)
  : http.Client -> http.Request -> result http.Response :=
  fun _ _ => Ok (http.mkResponse status code body).

Definition client : http.Client := http.mkClient None None None 10000000000.

Definition site : sitecheck.Site := sitecheck.mkSite "Example" "https://example.com".

Definition ctx : http.Context := http.context 1.

(** A platform whose backend starts and whose UI runs without error.
    The default constants are stand-ins: the real ones are declared in
    another file of package [main]. *)
Definition platform : main.Platform :=
  {| main.defaultListenAddr := "127.0.0.1:50051";
     main.defaultHTTPAddr := "127.0.0.1:8080";
     main.defaultDataDir := "data";
     main.defaultModuleID := "net";
     main.defaultVersion := "0.1.0";
     main.RunBackend_returns := fun _ _ => Ok 1%nat;
     main.app_Run_returns := fun _ => None |}.

(** The command line [--mode mode], nothing else given. *)
Definition onlyMode (mode : string) : main.CommandLine :=
  main.mkCommandLine (Some mode) None None None None None None None.

(** A process started with no environment variable set. *)
Definition bare : main.OS := main.mkOS ∅ [].

Definition cmd : exec.Cmd :=
  {| exec.Path := "sing-box.exe"; exec.Args := ["sing-box.exe"; "run"];
     exec.Env := ["A=1"]; exec.Dir := "C:/nekkus"; exec.Stdin := None;
     exec.Stdout := Some 3%nat; exec.Stderr := Some 4%nat; exec.ExtraFiles := [];
     exec.SysProcAttr :=
       Some (syscall.mkSysProcAttr false "" 512 0 None None false [] 0);
     exec.Process := None; exec.ProcessState := None; exec.Err := None;
     exec.Cancel := None; exec.WaitDelay := 0 |}.

(** A body longer than the part [checkOne] examines: [maxBodyCheck]
    filler bytes, then [tail]. *)
Definition longPage (tail : string) : io.Reader :=
  io.mkReader (repeat "x"%byte (Z.to_nat sitecheck.maxBodyCheck) ++ list_byte_of_string tail)
    io_EOF false.

(** A platform whose backend does not start. *)
Definition noBackend : main.Platform :=
  {| main.defaultListenAddr := "127.0.0.1:50051";
     main.defaultHTTPAddr := "127.0.0.1:8080";
     main.defaultDataDir := "data";
     main.defaultModuleID := "net";
     main.defaultVersion := "0.1.0";
     main.RunBackend_returns := fun _ _ => Fail (errors_New "listen: address in use");
     main.app_Run_returns := fun _ => None |}.

(** A platform whose backend starts and whose UI fails. *)
Definition noUI : main.Platform :=
  {| main.defaultListenAddr := "127.0.0.1:50051";
     main.defaultHTTPAddr := "127.0.0.1:8080";
     main.defaultDataDir := "data";
     main.defaultModuleID := "net";
     main.defaultVersion := "0.1.0";
     main.RunBackend_returns := fun _ _ => Ok 1%nat;
     main.app_Run_returns := fun _ => Some (errors_New "no display") |}.

(** The command line [--mode hub --ui]. *)
Definition hubWithUI : main.CommandLine :=
  main.mkCommandLine (Some "hub") (Some true) None None None None None None.

(** A process started from a development shell. *)
Definition devShell : main.OS :=
  main.mkOS (<["PATH" := "/usr/bin"]>
               (<["WAILS_VITE_PORT" := "9245"]> (<["VITE_MODE" := "dev"]> ∅))) [].

(** A body whose first read fails with an error whose message is
    [msg]. *)
Definition failingBody (msg : string) : io.Reader :=
  io.mkReader [] (errors_New msg) false.

(** One hour, in nanoseconds. *)
Definition hour : Z := 3600000000000.

(** A server that takes one hour to answer, behind a library that
    enforces [Client.Timeout] as net/http does: with a positive
    [Timeout] shorter than the hour, [client.Do] gives up when it
    expires; with a longer one, or with none (zero or negative), it
    returns the answer after the hour. *)
Definition slowNetwork : http.Runtime Z :=
  {| http.time_Now := fun w => w;
     http.NewRequestWithContext := fun ctx method url =>
       match ctx with
       | http.nilContext => Fail (errors_New "net/http: nil Context")
       | _ => Ok (http.mkRequest ctx method url ∅)
       end;
     http.Do := fun client req w =>
       if (0 <? http.Timeout client) && (http.Timeout client <? hour)
       then (Fail (errors_New "context deadline exceeded (Client.Timeout exceeded while awaiting headers)"),
             w + http.Timeout client)
       else (Ok (http.mkResponse "200 OK" 200 (page "hello" 1995)), w + hour) |}.

End sample.

(* ===================================================================== *)
(** * Facts about the string helpers *)
(* ===================================================================== *)

Module GoFacts.
Import Go.

Lemma append_String c s t : String c s +:+ t = String c (s +:+ t).
Proof. reflexivity. Qed.

Lemma HasPrefix_spec s prefix :
  HasPrefix s prefix = true <-> exists post, s = prefix +:+ post.
Proof.
  unfold HasPrefix. revert s; induction prefix as [|c prefix IH]; intros s.
  - simpl. split; [intros _; now exists s | now destruct s].
  - destruct s as [|d s]; simpl.
    + split; [discriminate | intros [post H]; rewrite append_String in H; discriminate].
    + destruct (ascii_dec c d) as [->|Hne].
      * rewrite IH. split; intros [post H]; exists post;
          rewrite append_String in *; congruence.
      * split; [discriminate | intros [post H]; rewrite append_String in H; congruence].
Qed.

(** [Contains s substr] holds exactly when [s] is some text, then
    [substr], then some text. *)
Lemma Contains_spec s substr :
  Contains s substr = true <-> exists pre post, s = pre +:+ substr +:+ post.
Proof.
  induction s as [|c s IH]; cbn [Contains]; rewrite orb_true_iff, HasPrefix_spec.
  - split.
    + intros [[post H]|H]; [|discriminate]. now exists "", post.
    + intros (pre & post & H). left.
      destruct pre; [now exists post | rewrite append_String in H; discriminate].
  - rewrite IH. split.
    + intros [[post H]|(pre & post & H)].
      * now exists "", post.
      * exists (String c pre), post. rewrite append_String. now rewrite H.
    + intros (pre & post & H). destruct pre as [|d pre].
      * left. now exists post.
      * right. exists pre, post. rewrite append_String in H. congruence.
Qed.

Example Contains_inside : Contains "this video unavailable here" "video unavailable" = true.
Proof. reflexivity. Qed.

Example Contains_is_case_sensitive : Contains "Video Unavailable" "video unavailable" = false.
Proof. reflexivity. Qed.

Example asciiToLower_run : asciiToLower "Video UNAVAILABLE" = "video unavailable".
Proof. reflexivity. Qed.

End GoFacts.

(* ===================================================================== *)
(** * Facts about [io.ReadAll] on a limited reader *)
(* ===================================================================== *)

Module ioFacts.
Import Go io.

Lemma take_take_drop {A} (l : list A) (n m : nat) :
  take n l ++ take m (drop n l) = take (n + m) l.
Proof.
  revert l; induction n as [|n IH]; intros [|x l]; simpl; try reflexivity.
  - now rewrite take_nil.
  - now rewrite IH.
Qed.

Section Loop.
Variable grow : nat -> nat.
Hypothesis grow_gt : forall cap, (0 < cap)%nat -> (cap < grow cap)%nat.

(** With room in the buffer and more fuel than bytes in the stream,
    the loop returns: the buffer, then the stream up to the limit. *)
Lemma ReadAll_loop_fuel fuel : forall l b cap,
  (length b < cap)%nat ->
  (length (pending (R l)) < fuel)%nat ->
  ReadAll_loop grow fuel l b cap
  = Some (b ++ take (Z.to_nat (N l)) (pending (R l)), limitedErr l).
Proof.
  induction fuel as [|fuel IH]; intros [[p fin eag] n] b cap Hb Hf; [lia|].
  simpl in Hf. cbn [ReadAll_loop].
  unfold LimitedReader_Read, limitedErr, len. cbn [R N pending final eager].
  destruct (Z.leb_spec n 0) as [Hn|Hn].
  { cbn. replace (Z.to_nat n) with 0%nat by lia. rewrite take_0.
    destruct (Z.ltb_spec 0 n); [lia|]. reflexivity. }
  destruct (Z.ltb_spec 0 n) as [_|]; [|lia]. cbn [andb].
  set (k := if Z.of_nat (cap - length b) >? n then Z.to_nat n else (cap - length b)%nat).
  assert (Hk : (1 <= k)%nat /\ (k <= cap - length b)%nat /\ (k <= Z.to_nat n)%nat).
  { unfold k. destruct (Z.gtb_spec (Z.of_nat (cap - length b)) n); lia. }
  destruct Hk as (Hk1 & Hk2 & Hk3). clearbody k.
  assert (Hstep :
    (k < length p)%nat \/ (eag = false /\ (0 < length p)%nat) ->
    ReadAll_loop grow fuel
      (mkLimitedReader (mkReader (drop k p) fin eag) (n - len (take k p)))
      (b ++ take k p) (if Nat.eqb (length (b ++ take k p)) cap then grow cap else cap)
    = Some (b ++ take (Z.to_nat n) p,
            if (Z.of_nat (length p) <? n) || (Z.of_nat (length p) =? n) && eag
            then nonEOF fin else None)).
  { intros Hcase.
    assert (Hlen : length (take k p) = (k `min` length p)%nat) by apply length_take.
    rewrite IH; cbn [R N pending final eager].
    - unfold limitedErr, len. cbn [R N pending final eager].
      rewrite Hlen, length_drop, <- app_assoc. f_equal. f_equal.
      + f_equal.
        destruct (Nat.le_gt_cases (length p) k) as [Hle|Hgt].
        * rewrite (drop_ge p k) by lia. rewrite take_nil, app_nil_r.
          rewrite !take_ge by lia. reflexivity.
        * replace (k `min` length p)%nat with k by lia.
          replace (Z.to_nat (n - Z.of_nat k)) with (Z.to_nat n - k)%nat by lia.
          rewrite take_take_drop.
          replace (k + (Z.to_nat n - k))%nat with (Z.to_nat n) by lia. reflexivity.
      + destruct (Z.ltb_spec 0 (n - Z.of_nat (k `min` length p))),
                 (Z.ltb_spec (Z.of_nat (length p - k)) (n - Z.of_nat (k `min` length p))),
                 (Z.eqb_spec (Z.of_nat (length p - k)) (n - Z.of_nat (k `min` length p))),
                 (Z.ltb_spec (Z.of_nat (length p)) n),
                 (Z.eqb_spec (Z.of_nat (length p)) n);
          cbn [andb orb]; try reflexivity; try lia;
          destruct Hcase as [?|[-> ?]]; try lia; reflexivity.
    - rewrite length_app, Hlen.
      destruct (Nat.eqb_spec (length b + k `min` length p) cap) as [<-|];
        [apply grow_gt |]; lia.
    - rewrite length_drop. lia. }
  unfold Read. cbn [pending final eager].
  destruct eag.
  - destruct (Nat.leb_spec (length p) k) as [Hle|Hgt].
    + cbn. rewrite take_ge by lia.
      destruct (Z.ltb_spec (Z.of_nat (length p)) n); cbn [orb andb]; [reflexivity|].
      destruct (Z.eqb_spec (Z.of_nat (length p)) n); [reflexivity | lia].
    + cbn beta iota. apply Hstep. lia.
  - destruct p as [|x p'] eqn:Ep.
    + clear Hstep. cbn [length]. change (Z.of_nat 0) with 0.
      rewrite take_nil, app_nil_r.
      destruct (Z.ltb_spec 0 n); [reflexivity | lia].
    + rewrite <- Ep in *. cbn beta iota. apply Hstep. right. subst p. simpl.
      split; [reflexivity | lia].
Qed.
End Loop.

(** [io.ReadAll] on a limited reader always returns, with the first
    [N] bytes of the stream (all of it when it is shorter), whatever the
    sizes of the reads. *)
Lemma ReadAll_spec l :
  ReadAll l = (take (Z.to_nat (N l)) (pending (R l)), limitedErr l).
Proof.
  unfold ReadAll. rewrite ReadAll_loop_fuel; [reflexivity | | simpl |]; lia.
Qed.

Lemma ReadAll_len l : 0 < N l -> len (fst (ReadAll l)) <= N l.
Proof.
  intros Hn. rewrite ReadAll_spec. cbn [fst]. unfold len. rewrite length_take. lia.
Qed.

Example ReadAll_cut :
  ReadAll (LimitReader (sample.page "abcdef" 0) 4) = (list_byte_of_string "abcd", None).
Proof. reflexivity. Qed.

Example ReadAll_error_before_limit :
  ReadAll (LimitReader (mkReader (list_byte_of_string "abc") (errors_New "reset") false) 4)
  = (list_byte_of_string "abc", Some (errors_New "reset")).
Proof. reflexivity. Qed.

Example ReadAll_error_behind_limit :
  ReadAll (LimitReader (mkReader (list_byte_of_string "abcd") (errors_New "reset") false) 4)
  = (list_byte_of_string "abcd", None).
Proof. reflexivity. Qed.

End ioFacts.

(* ===================================================================== *)
(** * Facts about package sitecheck *)
(* ===================================================================== *)

Module sitecheckFacts.
Import Go io http sitecheck GoFacts ioFacts.

Lemma rangePhrases_false bodyStr phrases :
  rangePhrases bodyStr phrases = false <->
  forall phrase, In phrase phrases -> Contains bodyStr phrase = false.
Proof.
  induction phrases as [|p ps IH]; simpl.
  - split; [intros _ ? [] | reflexivity].
  - destruct (Contains bodyStr p) eqn:E.
    + split; [discriminate | intros H; rewrite <- E; apply H; now left].
    + rewrite IH. split.
      * intros H q [<-|Hq]; auto.
      * intros H q Hq. apply H. now right.
Qed.

Lemma status_check code :
  (code <? 200) || (code >=? 400) = true <-> code < 200 \/ 400 <= code.
Proof. rewrite orb_true_iff, Z.ltb_lt, Z.geb_le. reflexivity. Qed.

Lemma status_pass code :
  (code <? 200) || (code >=? 400) = false <-> 200 <= code < 400.
Proof. rewrite orb_false_iff, Z.ltb_ge, Z.geb_leb, Z.leb_gt. reflexivity. Qed.

(** Unfold [checkOneAt] and split on every test it makes. *)
Ltac checkOne_cases :=
  unfold checkOne, checkOneAt;
  repeat match goal with
  | |- context [match NewRequestWithContext ?c ?m ?u with _ => _ end] =>
      let E := fresh "Enew" in destruct (NewRequestWithContext c m u) eqn:E
  | |- context [Do ?c ?r ?w] =>
      let E := fresh "Edo" in destruct (Do c r w) as [[?|?] ?] eqn:E
  | |- context [(?a <? 200) || (?a >=? 400)] =>
      let E := fresh "Estatus" in destruct ((a <? 200) || (a >=? 400)) eqn:E
  | |- context [io.ReadAll ?l] =>
      let E := fresh "Eread" in destruct (io.ReadAll l) as [? [?|]] eqn:E
  | |- context [len ?b <? minBodySize] =>
      let E := fresh "Eshort" in destruct (len b <? minBodySize) eqn:E
  | |- context [rangePhrases ?s ?ps] =>
      let E := fresh "Ephrase" in destruct (rangePhrases s ps) eqn:E
  end; cbn [fst snd Result.OK Result.Error Result.Name Result.URL].

Section Facts.
Context {STR : Strings} {World : Type} {RT : Runtime World}.

Lemma checkOne_Name_URL ctx client site timeout w :
  Result.Name (fst (checkOne ctx client site timeout w)) = Name site /\
  Result.URL (fst (checkOne ctx client site timeout w)) = URL site.
Proof. checkOne_cases; split; reflexivity. Qed.

(** C1.  The result of [checkOne] has [OK = true] exactly when the
    request was built and answered, the status code is in 200..399,
    the body, read through the 128 KiB limit, was read without error
    and is the first 128*1024 bytes of the stream, it has at least
    2000 bytes, and its lower-cased text contains no block phrase.  So
    a short body or a block phrase gives [OK = false]. *)
Theorem checkOne_OK_iff ctx client site timeout w :
  Result.OK (fst (checkOne ctx client site timeout w)) = true <->
  exists req resp w' body,
    NewRequestWithContext ctx MethodGet (URL site) = Ok req /\
    Do client (sentRequest req) w = (Ok resp, w') /\
    200 <= StatusCode resp < 400 /\
    io.ReadAll (io.LimitReader (Body resp) (128 * 1024)) = (body, None) /\
    body = take (Z.to_nat (128 * 1024)) (pending (Body resp)) /\
    2000 <= len body /\
    forall phrase, In phrase blockPhrases ->
      Contains (ToLower (string_of_list_byte body)) phrase = false.
Proof.
  split.
  - checkOne_cases; try discriminate. intros _.
    eexists _, _, _, _. split; [reflexivity|]. split; [exact Edo|].
    apply status_pass in Estatus.
    split; [exact Estatus|]. split; [exact Eread|].
    split; [| split].
    + rewrite ReadAll_spec in Eread. now inversion Eread.
    + apply Z.ltb_ge in Eshort. exact Eshort.
    + apply rangePhrases_false. exact Ephrase.
  - intros (req & resp & w' & body & Hnew & Hdo & [Hlo Hhi] & Hread & _ & Hlen & Hph).
    unfold sentRequest in Hdo. unfold checkOne, checkOneAt.
    rewrite Hnew, Hdo.
    rewrite (proj2 (status_pass _) (conj Hlo Hhi)).
    change maxBodyCheck with (128 * 1024). rewrite Hread.
    replace (len body <? minBodySize) with false
      by (symmetry; apply Z.ltb_ge; exact Hlen).
    apply rangePhrases_false in Hph. rewrite Hph. reflexivity.
Qed.

(** C2, as amended.  [Error] is the empty string exactly when [OK] is
    true or the check failed on a Go error (from
    [NewRequestWithContext], from [client.Do] or from reading the
    body) whose own message is empty: [checkOne] copies
    [err.Error()].  The status, short-body and block-phrase failures
    always carry a message, and a successful check carries none. *)
Theorem checkOne_Error_empty_iff ctx client site timeout w :
  let r := fst (checkOne ctx client site timeout w) in
  Result.Error r = "" <->
  Result.OK r = true \/
  exists err, Error err = "" /\
    (NewRequestWithContext ctx MethodGet (URL site) = Fail err \/
     exists req, NewRequestWithContext ctx MethodGet (URL site) = Ok req /\
       ((exists w', Do client (sentRequest req) w = (Fail err, w')) \/
        (exists resp w' body, Do client (sentRequest req) w = (Ok resp, w') /\
           200 <= StatusCode resp < 400 /\
           io.ReadAll (io.LimitReader (Body resp) maxBodyCheck) = (body, Some err)))).
Proof.
  cbv zeta. split.
  - checkOne_cases; intros H; try rewrite append_String in H; try discriminate H.
    all: try (now left).
    all: right; eexists; (split; [exact H|]).
    all: try (now left).
    all: right; eexists; (split; [reflexivity|]).
    all: first [ left; eexists; exact Edo
               | right; eexists _, _, _; split; [exact Edo|];
                 split; [now apply status_pass | exact Eread] ].
  - intros [H|(err & Herr & [Hnew|(req & Hnew &
              [(w' & Hdo)|(resp & w' & body & Hdo & Hst & Hread)])])].
    + revert H. checkOne_cases; intros H; try discriminate H. reflexivity.
    + unfold checkOne, checkOneAt. rewrite Hnew. exact Herr.
    + unfold sentRequest in Hdo. unfold checkOne, checkOneAt. rewrite Hnew, Hdo.
      exact Herr.
    + unfold sentRequest in Hdo. unfold checkOne, checkOneAt. rewrite Hnew, Hdo.
      rewrite (proj2 (status_pass _) Hst), Hread. exact Herr.
Qed.

Lemma rangeSites_spec ctx client sites timeout : forall results w,
  exists rs,
    fst (rangeSites ctx client sites timeout results w) = results ++ rs /\
    (fun r => (Result.Name r, Result.URL r)) <$> rs = (fun s => (Name s, URL s)) <$> sites.
Proof.
  induction sites as [|site sites IH]; intros results w; cbn [rangeSites].
  - exists []. now rewrite app_nil_r.
  - pose proof (checkOne_Name_URL ctx client site timeout w) as [Hn Hu].
    destruct (checkOne ctx client site timeout w) as [r w1]. cbn [fst] in Hn, Hu.
    destruct (IH (results ++ [r]) w1) as (rs & Hrs & Hmap).
    exists (r :: rs). rewrite Hrs, <- app_assoc. split; [reflexivity|].
    cbn. now rewrite Hn, Hu, Hmap.
Qed.

Lemma Check_names ctx client sites timeout w :
  (fun r => (Result.Name r, Result.URL r)) <$> fst (Check ctx client sites timeout w)
  = (fun s => (Name s, URL s)) <$> sites.
Proof.
  unfold Check.
  match goal with |- context [rangeSites ?a ?c ?s ?t ?r ?w] =>
    destruct (rangeSites_spec a c s t r w) as (rs & -> & Hmap) end.
  exact Hmap.
Qed.

(** C3.  [Check] returns as many results as there are sites, and the
    i-th result carries the name and the URL of the i-th site. *)
Theorem Check_one_Result_per_site ctx client sites timeout w :
  let results := fst (Check ctx client sites timeout w) in
  length results = length sites /\
  Forall2 (fun site r => Result.Name r = Name site /\ Result.URL r = URL site)
    sites results.
Proof.
  cbv zeta. pose proof (Check_names ctx client sites timeout w) as H.
  revert H. generalize (fst (Check ctx client sites timeout w)) as results.
  induction sites as [|site sites IH]; intros [|r results] H; try discriminate H.
  - split; [reflexivity | constructor].
  - cbn in H. injection H as Hn Hu Hrest. destruct (IH _ Hrest) as [Hlen Hall].
    split; [cbn; now rewrite Hlen | constructor; auto].
Qed.

(** One [checkOne] under the recording runtime: the same result, and
    one call of [client.Do] on [client] when a request could be built,
    none otherwise. *)
Lemma checkOne_recording_calls ctx client site timeout w fetched :
  checkOne (RT := recording RT) ctx client site timeout (w, fetched)
  = (fst (checkOne ctx client site timeout w),
     (snd (checkOne ctx client site timeout w),
      fetched ++ match requestFor ctx site with
                 | Some req => [(client, req)]
                 | None => []
                 end)).
Proof.
  unfold requestFor, sentRequest, checkOne, checkOneAt.
  cbn [recording time_Now NewRequestWithContext Do fst snd].
  destruct (NewRequestWithContext ctx MethodGet (URL site)) as [req|err].
  - match goal with |- context [Do client ?r w] =>
      destruct (Do client r w) as [[resp|err] w1] end; [|reflexivity].
    destruct ((StatusCode resp <? 200) || (StatusCode resp >=? 400)); [reflexivity|].
    destruct (ReadAll (LimitReader (Body resp) maxBodyCheck)) as [body [err|]];
      [reflexivity|].
    destruct (len body <? minBodySize); [reflexivity|].
    now destruct (rangePhrases _ blockPhrases).
  - now rewrite app_nil_r.
Qed.

Lemma rangeSites_recording_calls ctx client sites timeout : forall results w fetched,
  rangeSites (RT := recording RT) ctx client sites timeout results (w, fetched)
  = (fst (rangeSites ctx client sites timeout results w),
     (snd (rangeSites ctx client sites timeout results w),
      fetched ++ ((fun req => (client, req)) <$> omap (requestFor ctx) sites))).
Proof.
  induction sites as [|site sites IH]; intros results w fetched; cbn [rangeSites].
  - now rewrite app_nil_r.
  - rewrite checkOne_recording_calls.
    destruct (checkOne ctx client site timeout w) as [r w1]. cbn [fst snd].
    rewrite IH. cbn [omap list_omap].
    destruct (requestFor ctx site); cbn [fmap list_fmap app];
      now rewrite <- ?app_assoc, ?app_nil_r.
Qed.

(** Whole milliseconds of a duration that is at most [t] are at most
    [t]. *)
Lemma quot_ms_bound d t : d <= t -> 0 < t -> Z.quot d 1000000 * 1000000 <= t.
Proof.
  intros Hd Ht. destruct (Z.le_gt_cases 0 d) as [H|H].
  - pose proof (Z.mul_quot_le d 1000000 H ltac:(lia)). lia.
  - pose proof (Z.mul_quot_ge d 1000000 ltac:(lia) ltac:(lia)). lia.
Qed.

(** Under a library that enforces [Client.Timeout], the latency
    [checkOne] measures on a client with a positive [Timeout] is at most
    that [Timeout]. *)
Lemma checkOne_bounded ctx client site timeout w :
  honoursTimeout RT -> 0 < Timeout client ->
  Result.LatencyMs (fst (checkOne ctx client site timeout w)) * 1000000 <= Timeout client.
Proof.
  intros Hrt Hpos. unfold checkOne, checkOneAt.
  destruct (NewRequestWithContext ctx MethodGet (URL site)) as [req|err];
    [|cbn [fst snd Result.LatencyMs]; lia].
  match goal with |- context [Do client ?r w] =>
    pose proof (Hrt client r w Hpos) as Hdo;
    destruct (Do client r w) as [[resp|err] w1] end;
    cbn [fst snd] in Hdo.
  - destruct ((StatusCode resp <? 200) || (StatusCode resp >=? 400));
      [|destruct (ReadAll (LimitReader (Body resp) maxBodyCheck)) as [body [err|]];
        [|destruct (len body <? minBodySize);
          [|destruct (rangePhrases _ blockPhrases)]]];
      cbn [fst snd Result.LatencyMs]; now apply quot_ms_bound.
  - cbn [fst snd Result.LatencyMs]. now apply quot_ms_bound.
Qed.

Lemma rangeSites_bounded ctx client sites timeout :
  honoursTimeout RT -> 0 < Timeout client ->
  forall results w,
    Forall (fun r => Result.LatencyMs r * 1000000 <= Timeout client) results ->
    Forall (fun r => Result.LatencyMs r * 1000000 <= Timeout client)
      (fst (rangeSites ctx client sites timeout results w)).
Proof.
  intros Hrt Hpos. induction sites as [|site sites IH]; intros results w Hres;
    cbn [rangeSites]; [exact Hres|].
  pose proof (checkOne_bounded ctx client site timeout w Hrt Hpos) as H1.
  destruct (checkOne ctx client site timeout w) as [r w1]. cbn [fst] in H1.
  apply IH. apply Forall_app. split; [exact Hres|]. now constructor.
Qed.

(** C5.  Run [Check] with a nil client on a runtime that records the
    calls of [client.Do].  The results and the world are those of the
    plain run.  [Check] fetches, in the order of the sites, every site
    for which a request could be built, once, and makes every fetch on
    one client: its [Timeout] is the [timeout] argument, its
    [Transport] and [Jar] are nil, and its [CheckRedirect] answers
    [http.ErrUseLastResponse] whatever the redirect, which makes the
    library hand back the redirect response itself.  Where the library
    enforces [Client.Timeout] and [timeout] is positive, no fetch is
    measured longer than [timeout]. *)
Theorem Check_nil_client_timeout ctx sites timeout w :
  let run := Check (RT := recording RT) ctx None sites timeout (w, []) in
  (fst run, fst (snd run)) = Check ctx None sites timeout w /\
  (exists client policy,
     snd (snd run) = (fun req => (client, req)) <$> omap (requestFor ctx) sites /\
     Timeout client = timeout /\ Transport client = None /\ Jar client = None /\
     CheckRedirect client = Some policy /\
     forall req via, policy req via = http_ErrUseLastResponse) /\
  (honoursTimeout RT -> 0 < timeout ->
   Forall (fun r => Result.LatencyMs r * 1000000 <= timeout) (fst run)).
Proof.
  cbv zeta. unfold Check. rewrite rangeSites_recording_calls. cbn [fst snd app].
  split; [now destruct (rangeSites _ _ _ _ _ _)|]. split.
  - eexists _, _. split; [reflexivity|]. cbn [Timeout Transport Jar CheckRedirect].
    repeat split.
  - intros Hrt Hpos.
    match goal with |- context [rangeSites ctx ?c sites timeout [] w] =>
      apply (rangeSites_bounded ctx c sites timeout Hrt Hpos [] w) end.
    constructor.
Qed.

(** C7.  [DefaultSites] is the six entries ChatGPT, Gemini, Claude,
    Google, YouTube, Netflix with their URLs, in this order, and
    [Check] on it returns results for these six, in this order. *)
Theorem DefaultSites_fixed ctx client timeout w :
  (fun s => (Name s, URL s)) <$> DefaultSites =
    [("ChatGPT", "https://chat.openai.com");
     ("Gemini", "https://gemini.google.com");
     ("Claude", "https://claude.ai");
     ("Google", "https://www.google.com");
     ("YouTube", "https://www.youtube.com");
     ("Netflix", "https://www.netflix.com")] /\
  (fun r => (Result.Name r, Result.URL r))
    <$> fst (Check ctx client DefaultSites timeout w) =
    [("ChatGPT", "https://chat.openai.com");
     ("Gemini", "https://gemini.google.com");
     ("Claude", "https://claude.ai");
     ("Google", "https://www.google.com");
     ("YouTube", "https://www.youtube.com");
     ("Netflix", "https://www.netflix.com")].
Proof.
  split; [reflexivity|]. rewrite Check_names. reflexivity.
Qed.

(** The two lookup loops return the first index whose entry passes
    the test. *)
Lemma rangeByURL_Some url sites : forall i k,
  rangeByURL url i sites = Some k <->
  exists j site, k = (i + j)%nat /\ sites !! j = Some site /\ URL site = url /\
    forall j' site', (j' < j)%nat -> sites !! j' = Some site' -> URL site' <> url.
Proof.
  induction sites as [|s sites IH]; intros i k; cbn [rangeByURL].
  - split; [discriminate | intros (j & site & _ & H & _); discriminate].
  - destruct (String.eqb_spec (URL s) url) as [He|Hne].
    + split.
      * intros [= <-]. exists 0%nat, s. repeat split; auto with lia.
      * intros (j & site & -> & Hj & Hu & Hfirst). destruct j as [|j].
        -- f_equal. lia.
        -- exfalso. apply (Hfirst 0%nat s); [lia | reflexivity | exact He].
    + rewrite IH. split.
      * intros (j & site & -> & Hj & Hu & Hfirst). exists (S j), site.
        repeat split; [lia | exact Hj | exact Hu |].
        intros [|j'] site' Hlt Hs'; cbn in Hs'; [congruence|].
        apply (Hfirst j'); [lia | exact Hs'].
      * intros (j & site & -> & Hj & Hu & Hfirst). destruct j as [|j].
        -- cbn in Hj. congruence.
        -- exists j, site. repeat split; [lia | exact Hj | exact Hu |].
           intros j' site' Hlt Hs'. apply (Hfirst (S j')); [lia | exact Hs'].
Qed.

Lemma rangeByURL_None url sites : forall i,
  rangeByURL url i sites = None <-> forall site, In site sites -> URL site <> url.
Proof.
  induction sites as [|s sites IH]; intros i; cbn [rangeByURL].
  - split; [intros _ ? [] | reflexivity].
  - destruct (String.eqb_spec (URL s) url) as [He|Hne].
    + split; [discriminate | intros H; exfalso; apply (H s); [now left | exact He]].
    + rewrite IH. split.
      * intros H site [<-|Hin]; auto.
      * intros H site Hin. apply H. now right.
Qed.

Lemma rangeByName_Some lower sites : forall i k,
  rangeByName lower i sites = Some k <->
  exists j site, k = (i + j)%nat /\ sites !! j = Some site /\
    ToLower (Name site) = lower /\
    forall j' site', (j' < j)%nat -> sites !! j' = Some site' ->
      ToLower (Name site') <> lower.
Proof.
  induction sites as [|s sites IH]; intros i k; cbn [rangeByName].
  - split; [discriminate | intros (j & site & _ & H & _); discriminate].
  - destruct (String.eqb_spec (ToLower (Name s)) lower) as [He|Hne].
    + split.
      * intros [= <-]. exists 0%nat, s. repeat split; auto with lia.
      * intros (j & site & -> & Hj & Hu & Hfirst). destruct j as [|j].
        -- f_equal. lia.
        -- exfalso. apply (Hfirst 0%nat s); [lia | reflexivity | exact He].
    + rewrite IH. split.
      * intros (j & site & -> & Hj & Hu & Hfirst). exists (S j), site.
        repeat split; [lia | exact Hj | exact Hu |].
        intros [|j'] site' Hlt Hs'; cbn in Hs'; [congruence|].
        apply (Hfirst j'); [lia | exact Hs'].
      * intros (j & site & -> & Hj & Hu & Hfirst). destruct j as [|j].
        -- cbn in Hj. congruence.
        -- exists j, site. repeat split; [lia | exact Hj | exact Hu |].
           intros j' site' Hlt Hs'. apply (Hfirst (S j')); [lia | exact Hs'].
Qed.

Lemma rangeByName_None lower sites : forall i,
  rangeByName lower i sites = None <->
  forall site, In site sites -> ToLower (Name site) <> lower.
Proof.
  induction sites as [|s sites IH]; intros i; cbn [rangeByName].
  - split; [intros _ ? [] | reflexivity].
  - destruct (String.eqb_spec (ToLower (Name s)) lower) as [He|Hne].
    + split; [discriminate | intros H; exfalso; apply (H s); [now left | exact He]].
    + rewrite IH. split.
      * intros H site [<-|Hin]; auto.
      * intros H site Hin. apply H. now right.
Qed.

(** C8.  [SiteByName name] points at the first entry of
    [DefaultSites] whose name equals [name] once both are lower-cased,
    and is nil when there is none; [SiteByURL url] points at the
    first entry whose URL is [url] itself, and is nil when there is
    none.  A pointer [&DefaultSites[i]] is the index [i]. *)
Theorem SiteByName_SiteByURL_first_match :
  (forall name i,
     SiteByName name = Some i <->
     exists site, DefaultSites !! i = Some site /\
       ToLower (Name site) = ToLower name /\
       forall j site', (j < i)%nat -> DefaultSites !! j = Some site' ->
         ToLower (Name site') <> ToLower name) /\
  (forall name,
     SiteByName name = None <->
     forall site, In site DefaultSites -> ToLower (Name site) <> ToLower name) /\
  (forall url i,
     SiteByURL url = Some i <->
     exists site, DefaultSites !! i = Some site /\ URL site = url /\
       forall j site', (j < i)%nat -> DefaultSites !! j = Some site' ->
         URL site' <> url) /\
  (forall url,
     SiteByURL url = None <->
     forall site, In site DefaultSites -> URL site <> url).
Proof.
  unfold SiteByName, SiteByURL. repeat split.
  - intros H. apply rangeByName_Some in H as (j & site & -> & H). now exists site.
  - intros (site & H). apply rangeByName_Some. now exists i, site.
  - now apply rangeByName_None.
  - now apply rangeByName_None.
  - intros H. apply rangeByURL_Some in H as (j & site & -> & H). now exists site.
  - intros (site & H). apply rangeByURL_Some. now exists i, site.
  - now apply rangeByURL_None.
  - now apply rangeByURL_None.
Qed.

(** [checkOne] leaves through the status check only after a response
    was obtained. *)
Lemma ExitStatus_has_response ctx client site timeout w :
  fst (fst (checkOneAt ctx client site timeout w)) = ExitStatus ->
  exists req resp w',
    NewRequestWithContext ctx MethodGet (URL site) = Ok req /\
    Do client (sentRequest req) w = (Ok resp, w').
Proof.
  checkOne_cases; intros H; try discriminate H.
  eexists _, _, _. split; [reflexivity | exact Edo].
Qed.

(** C10.  For a response that was obtained, the result of [checkOne]
    carries the error ["HTTP "] followed by the status line exactly in
    two cases: the status code is below 200 or at least 400; or the code
    is in 200..399 and reading the body failed with an error whose
    message is that very text, which the result copies.  In the first
    case the result is not OK.  A code in 300..399 passes the status
    check, and whether the result is OK then depends on the body alone:
    it was read, has at least [minBodySize] bytes and holds no block
    phrase. *)
Theorem checkOne_HTTP_status_text ctx client site timeout w req resp w'
    (Hnew : NewRequestWithContext ctx MethodGet (URL site) = Ok req)
    (Hdo : Do client (sentRequest req) w = (Ok resp, w')) :
  let r := fst (checkOne ctx client site timeout w) in
  (Result.Error r = "HTTP " +:+ Status resp <->
     (StatusCode resp < 200 \/ 400 <= StatusCode resp) \/
     (200 <= StatusCode resp < 400 /\
      exists body err,
        io.ReadAll (io.LimitReader (Body resp) maxBodyCheck) = (body, Some err) /\
        Error err = "HTTP " +:+ Status resp)) /\
  (StatusCode resp < 200 \/ 400 <= StatusCode resp -> Result.OK r = false) /\
  (300 <= StatusCode resp <= 399 ->
     Result.OK r = true <->
     exists body,
       io.ReadAll (io.LimitReader (Body resp) maxBodyCheck) = (body, None) /\
       minBodySize <= len body /\
       forall phrase, In phrase blockPhrases ->
         Contains (ToLower (string_of_list_byte body)) phrase = false).
Proof.
  cbv zeta. unfold sentRequest in Hdo. unfold checkOne, checkOneAt. rewrite Hnew, Hdo.
  destruct ((StatusCode resp <? 200) || (StatusCode resp >=? 400)) eqn:Estatus.
  - apply status_check in Estatus. cbn [fst snd Result.Error Result.OK].
    split; [tauto|]. split; [tauto|]. intros Hst. lia.
  - apply status_pass in Estatus.
    assert (Hin : ~ (StatusCode resp < 200 \/ 400 <= StatusCode resp)) by lia.
    destruct (ReadAll (LimitReader (Body resp) maxBodyCheck)) as [body [err|]];
      [|destruct (len body <? minBodySize) eqn:Eshort;
        [|destruct (rangePhrases _ blockPhrases) eqn:Ephrase]];
      cbn [fst snd Result.OK Result.Error];
      (split; [|split; [tauto|intros _]]).
    + split.
      * intros H. right. split; [lia|]. now exists body, err.
      * intros [H|(_ & b & e & [= <- <-] & H)]; [tauto | exact H].
    + split; [discriminate | intros (b & [=] & _)].
    + split; [rewrite append_String; discriminate|].
      intros [H|(_ & b & e & [=] & _)]. tauto.
    + split; [discriminate | intros (b & [= <-] & Hlen & _)].
      apply Z.ltb_lt in Eshort. lia.
    + split; [rewrite append_String; discriminate|].
      intros [H|(_ & b & e & [=] & _)]. tauto.
    + split; [discriminate | intros (b & [= <-] & _ & Hph)].
      apply rangePhrases_false in Hph. congruence.
    + split; [rewrite append_String; discriminate|].
      intros [H|(_ & b & e & [=] & _)]. tauto.
    + split; [intros _ | reflexivity].
      exists body. split; [reflexivity|]. split; [now apply Z.ltb_ge|].
      now apply rangePhrases_false.
Qed.

End Facts.

(** ** Runs on concrete inputs *)

#[local] Existing Instance asciiStrings.

Example checkOne_blocked_page :
  fst (checkOneAt (RT := sample.scripted
                     (sample.always "200 OK" 200 (sample.page "Video UNAVAILABLE" 3000)))
         sample.ctx sample.client sample.site 10000000000 0)
  = (ExitPhrase,
     Result.mk "Example" "https://example.com" false 5
       "недоступен (блок по региону или заглушка)").
Proof. vm_compute. reflexivity. Qed.

Example checkOne_short_page :
  fst (checkOneAt (RT := sample.scripted
                     (sample.always "200 OK" 200 (sample.page "hello" 1994)))
         sample.ctx sample.client sample.site 10000000000 0)
  = (ExitShort,
     Result.mk "Example" "https://example.com" false 5
       "недоступен (слишком короткий ответ, возможно заглушка)").
Proof. vm_compute. reflexivity. Qed.

Example checkOne_good_page :
  fst (checkOneAt (RT := sample.scripted
                     (sample.always "200 OK" 200 (sample.page "hello" 1995)))
         sample.ctx sample.client sample.site 10000000000 0)
  = (ExitOK, Result.mk "Example" "https://example.com" true 5 "").
Proof. vm_compute. reflexivity. Qed.

Example checkOne_not_found :
  fst (checkOneAt (RT := sample.scripted
                     (sample.always "404 Not Found" 404 (sample.page "hello" 3000)))
         sample.ctx sample.client sample.site 10000000000 0)
  = (ExitStatus, Result.mk "Example" "https://example.com" false 5 "HTTP 404 Not Found").
Proof. vm_compute. reflexivity. Qed.

Example checkOne_nil_context :
  fst (checkOneAt (RT := sample.scripted
                     (sample.always "200 OK" 200 (sample.page "hello" 3000)))
         nilContext sample.client sample.site 10000000000 0)
  = (ExitNewRequest,
     Result.mk "Example" "https://example.com" false 0 "net/http: nil Context").
Proof. vm_compute. reflexivity. Qed.

Example SiteByName_ignores_case :
  SiteByName "cLAUDE" = Some 2%nat /\ SiteByName "Claude.ai" = None /\
  SiteByURL "https://www.netflix.com" = Some 5%nat /\
  SiteByURL "HTTPS://www.netflix.com" = None.
Proof. repeat split. Qed.

(** C2, counterexample to the statement as written.  The server answers 200 and the
    first read of the body fails with an error whose message is empty
    ([errors.New("")]): [checkOne] returns on its body-read error with
    [OK = false] and [Error = ""], so an empty [Error] does not mean
    success. *)
Lemma checkOne_failure_without_message :
  let RT := sample.scripted (sample.always "200 OK" 200 sample.brokenBody) in
  let run := checkOneAt (RT := RT) sample.ctx sample.client sample.site 10000000000 0 in
  let r := fst (checkOne (RT := RT) sample.ctx sample.client sample.site 10000000000 0) in
  fst (fst run) = ExitRead /\
  Result.OK r = false /\ Result.Error r = "" /\
  ~ (Result.Error r = "" <-> Result.OK r = true).
Proof.
  cbv zeta. split; [vm_compute; reflexivity|]. split; [vm_compute; reflexivity|].
  split; [vm_compute; reflexivity|].
  intros [H _]. vm_compute in H. discriminate (H eq_refl).
Qed.

Lemma slowNetwork_honoursTimeout : honoursTimeout sample.slowNetwork.
Proof.
  intros client req w Hpos. cbn [Do time_Now sample.slowNetwork].
  destruct ((0 <? Timeout client) && (Timeout client <? sample.hour)) eqn:E;
    cbn [fst snd]; [lia|].
  apply andb_false_iff in E as [E|E]; [apply Z.ltb_ge in E | apply Z.ltb_ge in E]; lia.
Qed.

(** C5, counterexample to the statement as written.  The library behind
    [sample.slowNetwork] enforces [Client.Timeout].  [Check] with a nil
    client and the timeout 0 builds a client whose [Timeout] is 0, which
    is no time limit: the one fetch lasts the hour the server takes and
    is reported OK with a latency of 3600000 ms, so the timeout argument
    did not bound it. *)
Lemma Check_nil_client_without_limit :
  honoursTimeout sample.slowNetwork /\
  Check (RT := sample.slowNetwork) sample.ctx None [sample.site] 0 0
  = ([Result.mk "Example" "https://example.com" true 3600000 ""], sample.hour) /\
  ~ Forall (fun r => Result.LatencyMs r * 1000000 <= 0)
      (fst (Check (RT := sample.slowNetwork) sample.ctx None [sample.site] 0 0)).
Proof.
  split; [exact slowNetwork_honoursTimeout|].
  assert (Hrun : Check (RT := sample.slowNetwork) sample.ctx None [sample.site] 0 0
                 = ([Result.mk "Example" "https://example.com" true 3600000 ""],
                    sample.hour)) by (vm_compute; reflexivity).
  split; [exact Hrun|]. rewrite Hrun. cbn [fst]. intros H.
  inversion H as [|r rs Hr _]. cbn in Hr. lia.
Qed.

(** With a timeout of 1 ms on the same network the fetch is given up
    when the timeout expires, and the latency reported is within it. *)
Lemma Check_nil_client_timeout_witness :
  honoursTimeout sample.slowNetwork /\ 0 < 1000000 /\
  Forall (fun r => Result.LatencyMs r * 1000000 <= 1000000)
    (fst (Check (RT := recording sample.slowNetwork)
            sample.ctx None [sample.site] 1000000 (0, []))).
Proof.
  split; [exact slowNetwork_honoursTimeout|]. split; [lia|].
  destruct (Check_nil_client_timeout (RT := sample.slowNetwork)
              sample.ctx [sample.site] 1000000 0) as (_ & _ & H).
  apply H; [exact slowNetwork_honoursTimeout | lia].
Defined.

Example Check_nil_client_gives_up :
  fst (Check (RT := sample.slowNetwork) sample.ctx None [sample.site] 1000000 0)
  = [Result.mk "Example" "https://example.com" false 1
       "context deadline exceeded (Client.Timeout exceeded while awaiting headers)"].
Proof. vm_compute. reflexivity. Qed.

(** C10, counterexample to the statement as written.  The server
    answers 200 with the status line ["200 OK"], and the first read of
    the body fails with an error whose message is ["HTTP 200 OK"]:
    [checkOne] returns on its body-read error, so the result carries the
    error ["HTTP "] followed by the status line although the status code
    is neither below 200 nor at least 400. *)
Lemma checkOne_HTTP_text_from_body_error :
  let RT := sample.scripted
              (sample.always "200 OK" 200 (sample.failingBody "HTTP 200 OK")) in
  let r := fst (checkOne (RT := RT) sample.ctx sample.client sample.site 10000000000 0) in
  r = Result.mk "Example" "https://example.com" false 5 "HTTP 200 OK" /\
  Result.Error r = "HTTP " +:+ "200 OK" /\
  ~ (200 < 200 \/ 400 <= 200) /\
  ~ (Result.Error r = "HTTP " +:+ "200 OK" <-> 200 < 200 \/ 400 <= 200).
Proof.
  cbv zeta. split; [vm_compute; reflexivity|]. split; [vm_compute; reflexivity|].
  split; [lia|]. intros [H _].
  assert (200 < 200 \/ 400 <= 200) by (apply H; vm_compute; reflexivity). lia.
Qed.

(** A 302 answer with a long clean page does not carry the status
    error and is reported OK. *)
Lemma checkOne_HTTP_status_text_witness :
  let RT := sample.scripted
              (sample.always "302 Found" 302 (sample.page "moved" 2500)) in
  let r := fst (checkOne (RT := RT) sample.ctx sample.client sample.site 10000000000 0) in
  Result.Error r <> "HTTP " +:+ "302 Found" /\ Result.OK r = true.
Proof.
  cbv zeta.
  pose proof (checkOne_HTTP_status_text
                (RT := sample.scripted
                         (sample.always "302 Found" 302 (sample.page "moved" 2500)))
                sample.ctx sample.client sample.site 10000000000 0
                (http.mkRequest sample.ctx MethodGet "https://example.com" ∅)
                (http.mkResponse "302 Found" 302 (sample.page "moved" 2500))
                5500000 eq_refl eq_refl) as (Htext & _ & _).
  cbv zeta in Htext. split; [|vm_compute; reflexivity].
  intros H. apply Htext in H. cbn [StatusCode Body] in H.
  destruct H as [H|(_ & body & err & H & _)]; [lia|].
  vm_compute in H. discriminate H.
Defined.

End sitecheckFacts.

(* ===================================================================== *)
(** * Facts about the Windows process hook *)
(* ===================================================================== *)

Module vpnFacts.
Import syscall exec vpn.

(** C6.  On a nil pointer [setProcessNoWindow] leaves the store as it
    is.  On the address of a command it replaces that command's
    [SysProcAttr] by a fresh attribute struct with [HideWindow] set, and
    changes nothing else: every other field of the command, and every
    other command in the store, is as before. *)
Theorem setProcessNoWindow_frame (heap : gmap nat Cmd) addr cmd
    (Hcmd : heap !! addr = Some cmd) :
  setProcessNoWindow None heap = heap /\
  exists cmd',
    setProcessNoWindow (Some addr) heap !! addr = Some cmd' /\
    SysProcAttr cmd' = Some hideWindowAttr /\
    HideWindow hideWindowAttr = true /\
    Path cmd' = Path cmd /\ Args cmd' = Args cmd /\ Env cmd' = Env cmd /\
    Dir cmd' = Dir cmd /\
    Stdin cmd' = Stdin cmd /\ Stdout cmd' = Stdout cmd /\ Stderr cmd' = Stderr cmd /\
    ExtraFiles cmd' = ExtraFiles cmd /\ Process cmd' = Process cmd /\
    ProcessState cmd' = ProcessState cmd /\ Err cmd' = Err cmd /\
    Cancel cmd' = Cancel cmd /\ WaitDelay cmd' = WaitDelay cmd /\
    forall other, other <> addr ->
      setProcessNoWindow (Some addr) heap !! other = heap !! other.
Proof.
  split; [reflexivity|].
  exists (assign_SysProcAttr (Some hideWindowAttr) cmd). cbn [setProcessNoWindow].
  split; [now rewrite lookup_alter_eq, Hcmd|].
  repeat (split; [reflexivity|]).
  intros other Hne. now rewrite lookup_alter_ne.
Qed.

(** The attribute struct is replaced as a whole: what an earlier
    [SysProcAttr] of the command held (here creation flags 512) is not
    kept. *)
Example setProcessNoWindow_replaces_attributes :
  SysProcAttr <$> (setProcessNoWindow (Some 7%nat) {[ 7%nat := sample.cmd ]} !! 7%nat)
  = Some (Some (mkSysProcAttr true "" 0 0 None None false [] 0)).
Proof. vm_compute. reflexivity. Qed.

Lemma setProcessNoWindow_frame_witness :
  ({[ 7%nat := sample.cmd ]} : gmap nat Cmd) !! 7%nat = Some sample.cmd /\
  exists cmd',
    setProcessNoWindow (Some 7%nat) {[ 7%nat := sample.cmd ]} !! 7%nat = Some cmd' /\
    SysProcAttr cmd' = Some hideWindowAttr /\
    Path cmd' = "sing-box.exe" /\ Args cmd' = ["sing-box.exe"; "run"].
Proof.
  assert (Hcmd : ({[ 7%nat := sample.cmd ]} : gmap nat Cmd) !! 7%nat = Some sample.cmd)
    by (vm_compute; reflexivity).
  split; [exact Hcmd|].
  destruct (setProcessNoWindow_frame {[ 7%nat := sample.cmd ]} 7%nat sample.cmd Hcmd)
    as (_ & cmd' & Hat & Hattr & _ & Hpath & Hargs & _).
  exists cmd'. repeat split; assumption.
Defined.

End vpnFacts.

(* ===================================================================== *)
(** * Facts about package main *)
(* ===================================================================== *)

Module mainFacts.
Import Go main.

Section Facts.
Context {STR : Strings} {PF : Platform}.

Lemma shouldShowUIFromEnv_quiet os :
  exists b, shouldShowUIFromEnv os = (Return b, os).
Proof.
  unfold shouldShowUIFromEnv, bind, os_Getenv.
  destruct (String.eqb _ ""); eexists; reflexivity.
Qed.

Lemma rangeEnviron_quiet entries : forall os,
  exists env, rangeEnviron entries os = (Return tt, mkOS env (trace os)).
Proof.
  induction entries as [|entry entries IH]; intros [env tr]; cbn [rangeEnviron].
  - now exists env.
  - unfold mbind, Proc_bind, bind.
    destruct (HasPrefix _ "WAILS" || HasPrefix _ "VITE"); cbn.
    + apply (IH (mkOS _ tr)).
    + apply (IH (mkOS env tr)).
Qed.

Lemma clearDevServerEnv_quiet os :
  exists env, clearDevServerEnv os = (Return tt, mkOS env (trace os)).
Proof.
  unfold clearDevServerEnv, bind, os_Environ. apply rangeEnviron_quiet.
Qed.

(** Up to the choice of the mode, [main] only reads the environment:
    the flag for the UI is settled and the state is as before. *)
Lemma showUI_settled (given : bool) os :
  exists showUI,
    (if negb given then shouldShowUIFromEnv else mret given) os = (Return showUI, os).
Proof.
  destruct given; cbn [negb].
  - now exists true.
  - apply shouldShowUIFromEnv_quiet.
Qed.

Lemma runWailsUI_run env tr :
  runWailsUI (mkOS env tr) =
    match app_Run_returns env with
    | Some err => (Exited 1, mkOS env (tr ++ uiEvents ++ [EvLogFatal err]))
    | None => (Return tt, mkOS env (tr ++ uiEvents))
    end.
Proof.
  unfold runWailsUI, mbind, Proc_bind, bind, emit, ask, log_Fatal, uiEvents.
  cbn [environ trace].
  destruct (app_Run_returns env); cbn [environ trace];
    repeat rewrite <- app_assoc; reflexivity.
Qed.

(** The whole run of [main] when the mode is not ["hub"]. *)
Lemma main_standalone_run args os :
  flagValue (arg_mode args) "standalone" <> "hub" ->
  main args os =
    let opts := optionsOf args os "standalone" true in
    match RunBackend_returns opts (environ os) with
    | Fail err =>
        (Exited 1, mkOS (environ os) (trace os ++ [EvRunBackend opts; EvLogFatal err]))
    | Ok _ =>
        match app_Run_returns (environ os) with
        | Some err =>
            (Exited 1,
             mkOS (environ os)
               (trace os ++ EvRunBackend opts :: uiEvents ++ [EvLogFatal err]))
        | None =>
            (Return tt, mkOS (environ os) (trace os ++ EvRunBackend opts :: uiEvents))
        end
    end.
Proof.
  intros Hmode. cbv zeta. apply String.eqb_neq in Hmode.
  unfold main. unfold bind at 1. cbn [os_Getenv]. unfold bind at 1.
  destruct (showUI_settled (flagValue (arg_ui args) false) os) as [showUI ->].
  rewrite Hmode. destruct os as [env tr]. cbn [environ trace].
  unfold bind, RunBackend, mbind, Proc_bind, bind, emit, ask. cbn [environ trace].
  fold (optionsOf args (mkOS env tr) "standalone" true).
  destruct (RunBackend_returns _ env) as [srv|err].
  - rewrite runWailsUI_run.
    destruct (app_Run_returns env); repeat rewrite <- app_assoc; reflexivity.
  - unfold log_Fatal. cbn [environ trace]. now rewrite <- app_assoc.
Qed.

(** The whole run of [main] in hub mode; [env] is the environment
    after the development-server variables were cleared (the one at
    start-up when no UI is shown). *)
Lemma main_hub_run args os :
  flagValue (arg_mode args) "standalone" = "hub" ->
  exists showUI env,
    main args os =
      let opts := optionsOf args os "hub" showUI in
      match RunBackend_returns opts env with
      | Fail err =>
          (Exited 1, mkOS env (trace os ++ [EvRunBackend opts; EvLogFatal err]))
      | Ok grpcServer =>
          if showUI then
            match app_Run_returns env with
            | Some err =>
                (Exited 1,
                 mkOS env (trace os ++ EvRunBackend opts ::
                             EvGoWaitForShutdown grpcServer ::
                             uiEvents ++ [EvLogFatal err]))
            | None =>
                (Return tt,
                 mkOS env (trace os ++ EvRunBackend opts ::
                             EvGoWaitForShutdown grpcServer ::
                             uiEvents ++ [EvGracefulStop grpcServer]))
            end
          else
            (Return tt,
             mkOS env (trace os ++ [EvRunBackend opts; EvWaitForShutdown grpcServer]))
      end.
Proof.
  intros Hmode. cbv zeta. apply String.eqb_eq in Hmode.
  unfold main. unfold bind at 1. cbn [os_Getenv]. unfold bind at 1.
  destruct (showUI_settled (flagValue (arg_ui args) false) os) as [showUI ->].
  rewrite Hmode. exists showUI.
  fold (optionsOf args os "hub" showUI).
  destruct showUI.
  - unfold mbind at 1, Proc_bind at 1, bind at 1.
    unfold mbind at 1, Proc_bind at 1, bind at 1.
    destruct (clearDevServerEnv_quiet os) as [env1 ->].
    unfold mbind, Proc_bind, bind, os_Setenv, RunBackend, mbind, Proc_bind, bind,
      emit, ask.
    cbn [environ trace].
    match goal with |- context [RunBackend_returns _ ?e] => exists e end.
    destruct (RunBackend_returns _ _) as [srv|err].
    + unfold go_waitForShutdown, GracefulStop, emit. cbn [environ trace].
      rewrite runWailsUI_run.
      destruct (app_Run_returns _); cbn [environ trace mret Proc_ret];
        repeat rewrite <- app_assoc; reflexivity.
    + unfold log_Fatal. cbn [environ trace]. now rewrite <- app_assoc.
  - destruct os as [env tr].
    unfold mbind, Proc_bind, bind, mret, Proc_ret, RunBackend, mbind, Proc_bind, bind,
      emit, ask, waitForShutdown, emit, log_Fatal.
    cbn [environ trace]. exists env.
    destruct (RunBackend_returns _ _) as [srv|err]; cbn [environ trace];
      now rewrite <- app_assoc.
Qed.

(** C9.  With any mode other than ["hub"], [main] runs the standalone
    path, whatever the mode says: it starts the backend once, with
    [Mode] ["standalone"] and [StartHTTP] true; when the backend
    starts, it launches the UI; the only errors it ends on are the one
    [RunBackend] returned and the one [app.Run] returned. *)
Theorem main_non_hub_is_standalone args os :
  flagValue (arg_mode args) "standalone" <> "hub" ->
  let opts :=
    {| Mode := "standalone";
       GRPCAddr := flagValue (arg_addr args) defaultListenAddr;
       HTTPAddr := flagValue (arg_http_addr args) defaultHTTPAddr;
       DataDir := flagValue (arg_data_dir args) defaultDataDir;
       HubAddr := flagValue (arg_hub_addr args)
                    (default "" (environ os !! "NEKKUS_HUB_ADDR"));
       ModuleID := flagValue (arg_module_id args) defaultModuleID;
       Version := flagValue (arg_version args) defaultVersion;
       StartHTTP := true |} in
  let ui := [EvApplicationNew "nekkus VPN" "nekkus VPN standalone module";
             EvWindowNew "nekkus VPN" "/"; EvOnWindowClosingQuit; EvAppRun] in
  main args os =
    match RunBackend_returns opts (environ os) with
    | Fail err =>
        (Exited 1, mkOS (environ os) (trace os ++ [EvRunBackend opts; EvLogFatal err]))
    | Ok _ =>
        match app_Run_returns (environ os) with
        | Some err =>
            (Exited 1,
             mkOS (environ os) (trace os ++ EvRunBackend opts :: ui ++ [EvLogFatal err]))
        | None =>
            (Return tt, mkOS (environ os) (trace os ++ EvRunBackend opts :: ui))
        end
    end.
Proof.
  intros Hmode. apply (main_standalone_run args os Hmode).
Qed.

(** C4, as amended.  [main] starts the backend exactly once.  The mode
    it passes is ["hub"] when the mode flag is ["hub"] and
    ["standalone"] otherwise, and the hub address, the module id and
    the version it passes are the values of their flags (for the hub
    address the default is the variable NEKKUS_HUB_ADDR), unchecked:
    each is non-empty exactly when the flag value is. *)
Theorem main_backend_options args os :
  let mode := flagValue (arg_mode args) "standalone" in
  exists opts after,
    trace (snd (main args os)) = trace os ++ EvRunBackend opts :: after /\
    (forall opts', ~ In (EvRunBackend opts') after) /\
    Mode opts = (if String.eqb mode "hub" then "hub" else "standalone") /\
    HubAddr opts = flagValue (arg_hub_addr args)
                     (default "" (environ os !! "NEKKUS_HUB_ADDR")) /\
    ModuleID opts = flagValue (arg_module_id args) defaultModuleID /\
    Version opts = flagValue (arg_version args) defaultVersion.
Proof.
  cbv zeta.
  assert (Hnot : forall l : list Event,
             Forall (fun e => match e with EvRunBackend _ => False | _ => True end) l ->
             forall opts', ~ In (EvRunBackend opts') l).
  { intros l Hl opts' Hin. rewrite List.Forall_forall in Hl. apply (Hl _ Hin). }
  destruct (String.eqb_spec (flagValue (arg_mode args) "standalone") "hub") as [Hhub|Hne].
  - destruct (main_hub_run args os Hhub) as (showUI & env & ->). cbv zeta.
    exists (optionsOf args os "hub" showUI).
    destruct (RunBackend_returns _ env) as [srv|err];
      [destruct showUI; [destruct (app_Run_returns env)|]|];
      cbn [snd trace]; eexists; (split; [reflexivity|]);
      (split; [apply Hnot; unfold uiEvents; repeat constructor|]);
      repeat split.
  - rewrite (main_standalone_run args os Hne). cbv zeta.
    exists (optionsOf args os "standalone" true).
    destruct (RunBackend_returns _ _) as [srv|err];
      [destruct (app_Run_returns _)|];
      cbn [snd trace]; eexists; (split; [reflexivity|]);
      (split; [apply Hnot; unfold uiEvents; repeat constructor|]);
      repeat split.
Qed.

End Facts.

(** ** Runs on concrete inputs *)

#[local] Existing Instance asciiStrings.
#[local] Existing Instance sample.platform.

Example main_hub_run_bare :
  main (sample.onlyMode "hub") sample.bare
  = (Return tt,
     mkOS ∅ [EvRunBackend (mkBackendOptions "hub" "127.0.0.1:50051" "127.0.0.1:8080"
                              "data" "" "net" "0.1.0" false);
             EvWaitForShutdown 1]).
Proof. vm_compute. reflexivity. Qed.

(** C4, counterexample to the statement as written.  Started as [--mode hub] with no
    [--hub-addr] and no NEKKUS_HUB_ADDR in the environment, [main] calls
    [RunBackend] once, in hub mode, with the empty hub address. *)
Lemma main_hub_with_empty_hub_address :
  exists opts,
    trace (snd (main (sample.onlyMode "hub") sample.bare))
      = [EvRunBackend opts; EvWaitForShutdown 1] /\
    Mode opts = "hub" /\ HubAddr opts = "" /\
    ~ (HubAddr opts <> "" /\ ModuleID opts <> "" /\ Version opts <> "").
Proof.
  exists (mkBackendOptions "hub" "127.0.0.1:50051" "127.0.0.1:8080"
            "data" "" "net" "0.1.0" false).
  split; [vm_compute; reflexivity|]. split; [reflexivity|]. split; [reflexivity|].
  intros [H _]. apply H. reflexivity.
Qed.

(** The unknown mode ["cluster"] runs the standalone path. *)
Lemma main_non_hub_is_standalone_witness :
  flagValue (Some "cluster") "standalone" <> "hub" /\
  main (sample.onlyMode "cluster") sample.bare
  = (Return tt,
     mkOS ∅ [EvRunBackend (mkBackendOptions "standalone" "127.0.0.1:50051"
                              "127.0.0.1:8080" "data" "" "net" "0.1.0" true);
             EvApplicationNew "nekkus VPN" "nekkus VPN standalone module";
             EvWindowNew "nekkus VPN" "/"; EvOnWindowClosingQuit; EvAppRun]).
Proof.
  split; [discriminate|].
  rewrite (main_non_hub_is_standalone (sample.onlyMode "cluster") sample.bare);
    [reflexivity | discriminate].
Defined.

End mainFacts.
(* ===================================================================== *)
(** * More about package sitecheck *)
(* ===================================================================== *)

Module sitecheckMore.
Import Go io http sitecheck GoFacts ioFacts sitecheckFacts.

Section More.
Context {STR : Strings} {World : Type} {RT : Runtime World}.

Lemma rangeSites_timeout ctx client sites t1 t2 : forall results w,
  rangeSites ctx client sites t1 results w = rangeSites ctx client sites t2 results w.
Proof.
  induction sites as [|site sites IH]; intros results w; cbn [rangeSites]; [reflexivity|].
  change (checkOne ctx client site t1 w) with (checkOne ctx client site t2 w).
  destruct (checkOne ctx client site t2 w). apply IH.
Qed.

(** X1.  When a client is supplied, [Check] does not look at its
    [timeout] argument: two calls that differ in nothing else return the
    same results and leave the same world. *)
Theorem Check_supplied_client_ignores_timeout ctx client sites t1 t2 w :
  Check ctx (Some client) sites t1 w = Check ctx (Some client) sites t2 w.
Proof. unfold Check. apply rangeSites_timeout. Qed.

Lemma rangeSites_results ctx client sites timeout : forall results w,
  rangeSites ctx client sites timeout results w
  = (results ++ fst (rangeSites ctx client sites timeout [] w),
     snd (rangeSites ctx client sites timeout [] w)).
Proof.
  induction sites as [|site sites IH]; intros results w; cbn [rangeSites].
  - now rewrite app_nil_r.
  - destruct (checkOne ctx client site timeout w) as [r w1].
    rewrite (IH (results ++ [r])), (IH ([] ++ [r])). cbn [fst snd].
    now rewrite <- app_assoc.
Qed.

Lemma rangeSites_app ctx client s1 s2 timeout : forall results w,
  rangeSites ctx client (s1 ++ s2) timeout results w
  = rangeSites ctx client s2 timeout
      (fst (rangeSites ctx client s1 timeout results w))
      (snd (rangeSites ctx client s1 timeout results w)).
Proof.
  induction s1 as [|site s1 IH]; intros results w; cbn [rangeSites app]; [reflexivity|].
  destruct (checkOne ctx client site timeout w) as [r w1]. apply IH.
Qed.

(** X2.  [Check] on no site returns no result and leaves the world as
    it is; on one site it returns what [CheckOne] returns for it; on a
    list in two parts it returns the results of the first part, then
    those of the second part run in the world the first part left. *)
Theorem Check_composes ctx client timeout w :
  Check ctx client [] timeout w = ([], w) /\
  (forall c site,
     Check ctx (Some c) [site] timeout w
     = ([fst (CheckOne ctx c site timeout w)], snd (CheckOne ctx c site timeout w))) /\
  (forall s1 s2,
     let first := Check ctx client s1 timeout w in
     let second := Check ctx client s2 timeout (snd first) in
     Check ctx client (s1 ++ s2) timeout w = (fst first ++ fst second, snd second)).
Proof.
  split; [reflexivity|]. split.
  - intros c site. unfold Check, CheckOne. cbn [rangeSites].
    now destruct (checkOne ctx c site timeout w).
  - intros s1 s2. cbv zeta. unfold Check. rewrite rangeSites_app.
    now rewrite rangeSites_results.
Qed.


Lemma omap_length_le {A B} (f : A -> option B) (l : list A) :
  (length (omap f l) <= length l)%nat.
Proof.
  induction l as [|x l IH]; cbn; [lia|]. destruct (f x); cbn; lia.
Qed.

(** X3.  Run [Check] on a runtime that records the calls of
    [client.Do]: the requests sent are, in the order of the sites, the
    one request of each site for which a request could be built, and
    nothing else; a supplied client is the client of every call. *)
Theorem Check_fetches_once_per_site ctx client sites timeout w :
  let run := Check (RT := recording RT) ctx client sites timeout (w, []) in
  snd <$> snd (snd run) = omap (requestFor ctx) sites /\
  (length (snd (snd run)) <= length sites)%nat /\
  (forall c, client = Some c -> Forall (fun call => fst call = c) (snd (snd run))).
Proof.
  cbv zeta. unfold Check. rewrite rangeSites_recording_calls. cbn [fst snd app].
  split; [|split].
  - rewrite <- list_fmap_compose. apply list_fmap_id.
  - rewrite length_fmap. apply omap_length_le.
  - intros c ->. apply Forall_fmap, Forall_true. reflexivity.
Qed.

(** X4.  The request [checkOne] sends carries the browser's
    [User-Agent] and the [Accept] header of the source, each with that
    one value; every other header, the method, the URL and the context
    are those of the request [NewRequestWithContext] made. *)
Theorem sentRequest_headers req :
  req_Header (sentRequest req) !! "User-Agent"
    = Some ["Mozilla/5.0 (Windows NT 10.0; rv:131.0) Gecko/20100101 Firefox/131.0"] /\
  req_Header (sentRequest req) !! "Accept"
    = Some ["text/html,application/xhtml+xml,application/xml;q=0.9,*/*;q=0.8"] /\
  (forall key, key <> "User-Agent" -> key <> "Accept" ->
     req_Header (sentRequest req) !! key = req_Header req !! key) /\
  Method (sentRequest req) = Method req /\
  req_URL (sentRequest req) = req_URL req /\
  req_ctx (sentRequest req) = req_ctx req.
Proof.
  unfold sentRequest, Header_Set. cbn [req_Header Method req_URL req_ctx].
  generalize (req_Header req). unfold Header. intros headers.
  split; [|split; [|split]].
  - rewrite lookup_insert_ne by discriminate. apply lookup_insert_eq.
  - apply lookup_insert_eq.
  - intros key H1 H2. now rewrite !lookup_insert_ne by congruence.
  - repeat split.
Qed.

(** X5.  On a clock that does not run backwards: when no request could
    be built, [checkOne] reports latency 0 and leaves the world as it is;
    otherwise the world it leaves is the one [client.Do] left, and the
    latency is the time across that one call in whole milliseconds,
    rounded down, so it is never negative and does not count reading the
    body. *)
Theorem checkOne_latency ctx client site timeout w
    (Hclock : forall c req w0, time_Now w0 <= time_Now (snd (Do c req w0))) :
  let r := fst (checkOne ctx client site timeout w) in
  let w' := snd (checkOne ctx client site timeout w) in
  match requestFor ctx site with
  | None => Result.LatencyMs r = 0 /\ w' = w
  | Some req =>
      w' = snd (Do client req w) /\
      0 <= Result.LatencyMs r /\
      Result.LatencyMs r * 1000000 <= time_Now w' - time_Now w
        < (Result.LatencyMs r + 1) * 1000000
  end.
Proof.
  cbv zeta. unfold requestFor, sentRequest, checkOne, checkOneAt.
  destruct (NewRequestWithContext ctx MethodGet (URL site)) as [req|err];
    [|split; reflexivity].
  match goal with |- context [Do client ?r w] =>
    pose proof (Hclock client r w) as Hc; destruct (Do client r w) as [res w1] end.
  cbn [snd] in Hc.
  assert (Hq : 0 <= (time_Now w1 - time_Now w) ÷ 1000000 /\
               (time_Now w1 - time_Now w) ÷ 1000000 * 1000000 <= time_Now w1 - time_Now w
                 < ((time_Now w1 - time_Now w) ÷ 1000000 + 1) * 1000000).
  { rewrite Z.quot_div_nonneg by lia.
    pose proof (Z.div_mod (time_Now w1 - time_Now w) 1000000 ltac:(lia)).
    pose proof (Z.mod_pos_bound (time_Now w1 - time_Now w) 1000000 ltac:(lia)).
    assert (0 <= (time_Now w1 - time_Now w) / 1000000) by (apply Z.div_pos; lia).
    lia. }
  destruct res as [resp|err]; [|cbn; tauto].
  destruct ((StatusCode resp <? 200) || (StatusCode resp >=? 400)); [cbn; tauto|].
  destruct (ReadAll (LimitReader (Body resp) maxBodyCheck)) as [body [err|]]; [cbn; tauto|].
  destruct (len body <? minBodySize); [cbn; tauto|].
  destruct (rangePhrases _ blockPhrases); cbn; tauto.
Qed.

End More.

Lemma asciiToLower_app s t : asciiToLower (s +:+ t) = asciiToLower s +:+ asciiToLower t.
Proof.
  induction s as [|c s IH]; [reflexivity|].
  rewrite append_String. cbn [asciiToLower]. now rewrite IH, append_String.
Qed.

(** X6.  [checkOne] does not look past the first [maxBodyCheck] bytes
    of a body: two answers with the same status whose bodies are longer
    than that and agree on these bytes give the same [OK] and the same
    [Error], whatever follows (more text, a block phrase, a read
    error). *)
Theorem checkOne_ignores_body_beyond_limit {STR : Strings} {World1 World2 : Type}
    (RT1 : Runtime World1) (RT2 : Runtime World2)
    ctx client site timeout w1 w2 req1 req2 resp1 resp2 w1' w2'
    (Hnew1 : NewRequestWithContext (Runtime := RT1) ctx MethodGet (URL site) = Ok req1)
    (Hdo1 : Do (Runtime := RT1) client (sentRequest req1) w1 = (Ok resp1, w1'))
    (Hnew2 : NewRequestWithContext (Runtime := RT2) ctx MethodGet (URL site) = Ok req2)
    (Hdo2 : Do (Runtime := RT2) client (sentRequest req2) w2 = (Ok resp2, w2'))
    (Hstatus : Status resp1 = Status resp2)
    (Hcode : StatusCode resp1 = StatusCode resp2)
    (Hlong1 : maxBodyCheck < len (pending (Body resp1)))
    (Hlong2 : maxBodyCheck < len (pending (Body resp2)))
    (Hsame : take (Z.to_nat maxBodyCheck) (pending (Body resp1))
             = take (Z.to_nat maxBodyCheck) (pending (Body resp2))) :
  let r1 := fst (checkOne (RT := RT1) ctx client site timeout w1) in
  let r2 := fst (checkOne (RT := RT2) ctx client site timeout w2) in
  Result.OK r1 = Result.OK r2 /\ Result.Error r1 = Result.Error r2.
Proof.
  cbv zeta. unfold sentRequest in Hdo1, Hdo2. unfold checkOne, checkOneAt.
  rewrite Hnew1, Hdo1, Hnew2, Hdo2, Hcode, Hstatus.
  destruct ((StatusCode resp2 <? 200) || (StatusCode resp2 >=? 400)); [split; reflexivity|].
  rewrite !ReadAll_spec. unfold limitedErr, LimitReader. cbn [R N].
  rewrite Hsame.
  destruct (Z.ltb_spec (len (pending (Body resp1))) maxBodyCheck); [lia|].
  destruct (Z.eqb_spec (len (pending (Body resp1))) maxBodyCheck); [lia|].
  destruct (Z.ltb_spec (len (pending (Body resp2))) maxBodyCheck); [lia|].
  destruct (Z.eqb_spec (len (pending (Body resp2))) maxBodyCheck); [lia|].
  cbn [orb andb]. rewrite !andb_false_r.
  destruct (len _ <? minBodySize); [split; reflexivity|].
  destruct (rangePhrases _ blockPhrases); split; reflexivity.
Qed.

(** X7.  Block phrases are found whatever the letter case.  For a
    [strings.ToLower] that lower-cases an ASCII run in place: when a body
    of at least [minBodySize] bytes, read without error from an answer
    with status in 200..399, holds an ASCII text whose lower-case form is
    a block phrase, the result is not OK and carries the block
    message. *)
Theorem checkOne_flags_phrase_in_any_case {STR : Strings} {World : Type} {RT : Runtime World}
    ctx client site timeout w req resp w' body pre t post
    (Hlower : forall pre t post, isASCII t = true ->
       exists pre' post', ToLower (pre +:+ t +:+ post) = pre' +:+ asciiToLower t +:+ post')
    (Hnew : NewRequestWithContext ctx MethodGet (URL site) = Ok req)
    (Hdo : Do client (sentRequest req) w = (Ok resp, w'))
    (Hcode : 200 <= StatusCode resp < 400)
    (Hread : io.ReadAll (io.LimitReader (Body resp) maxBodyCheck) = (body, None))
    (Hlen : minBodySize <= len body)
    (Htext : string_of_list_byte body = pre +:+ t +:+ post)
    (Hascii : isASCII t = true)
    (Hphrase : In (asciiToLower t) blockPhrases) :
  let r := fst (checkOne ctx client site timeout w) in
  Result.OK r = false /\
  Result.Error r = "недоступен (блок по региону или заглушка)".
Proof.
  cbv zeta. unfold sentRequest in Hdo. unfold checkOne, checkOneAt.
  rewrite Hnew, Hdo, (proj2 (status_pass _) Hcode), Hread.
  replace (len body <? minBodySize) with false by (symmetry; now apply Z.ltb_ge).
  destruct (rangePhrases _ blockPhrases) eqn:E; [split; reflexivity|].
  exfalso. rewrite rangePhrases_false in E. specialize (E _ Hphrase).
  rewrite Htext in E. destruct (Hlower pre t post Hascii) as (pre' & post' & Hl).
  rewrite Hl in E.
  assert (Contains (pre' +:+ asciiToLower t +:+ post') (asciiToLower t) = true)
    by (apply Contains_spec; now exists pre', post').
  congruence.
Qed.

(** X8.  No two entries of [DefaultSites] share a URL: looking up the
    URL of the entry at index [i] returns the pointer to that entry. *)
Theorem SiteByURL_inverts_indexing i site (Hsite : DefaultSites !! i = Some site) :
  SiteByURL (URL site) = Some i.
Proof.
  do 6 (destruct i as [|i]; [injection Hsite as <-; reflexivity|]).
  discriminate Hsite.
Qed.

(** X9.  For a [strings.ToLower] that on ASCII text lower-cases the
    letters A..Z: an ASCII name that equals the name of an entry of
    [DefaultSites] up to letter case is found, and the pointer returned
    is to that entry. *)
Theorem SiteByName_ignores_ASCII_case {STR : Strings} name i site
    (Hlower : forall s, isASCII s = true -> ToLower s = asciiToLower s)
    (Hascii : isASCII name = true)
    (Hsite : DefaultSites !! i = Some site)
    (Hname : asciiToLower name = asciiToLower (Name site)) :
  SiteByName name = Some i.
Proof.
  unfold SiteByName. rewrite (Hlower name Hascii), Hname.
  unfold DefaultSites in *. cbn [rangeByName Name].
  rewrite !Hlower by reflexivity.
  do 6 (destruct i as [|i]; [injection Hsite as <-; reflexivity|]).
  discriminate Hsite.
Qed.

(** ** Runs on concrete inputs *)

#[local] Existing Instance asciiStrings.

Lemma asciiStrings_lowers_in_place pre t post :
  isASCII t = true ->
  exists pre' post', asciiToLower (pre +:+ t +:+ post) = pre' +:+ asciiToLower t +:+ post'.
Proof.
  intros _. exists (asciiToLower pre), (asciiToLower post).
  now rewrite !asciiToLower_app.
Qed.

Lemma longPage_len tail :
  (0 < length (list_byte_of_string tail))%nat ->
  maxBodyCheck < len (pending (sample.longPage tail)).
Proof.
  intros H. unfold sample.longPage, len. cbn [pending].
  rewrite length_app, repeat_length. unfold maxBodyCheck. lia.
Qed.

Lemma longPage_take tail :
  take (Z.to_nat maxBodyCheck) (pending (sample.longPage tail))
  = repeat "x"%byte (Z.to_nat maxBodyCheck).
Proof.
  unfold sample.longPage. cbn [pending].
  rewrite take_app_le by (rewrite repeat_length; lia).
  apply take_ge. rewrite repeat_length. lia.
Qed.

Lemma checkOne_latency_witness :
  let RT := sample.scripted (sample.always "200 OK" 200 (sample.page "hello" 1995)) in
  let r := fst (checkOne (RT := RT) sample.ctx sample.client sample.site 0 0) in
  0 <= Result.LatencyMs r /\ Result.LatencyMs r * 1000000 <= 5500000.
Proof.
  cbv zeta.
  pose proof (checkOne_latency
                (RT := sample.scripted (sample.always "200 OK" 200 (sample.page "hello" 1995)))
                sample.ctx sample.client sample.site 0 0) as H.
  cbv zeta in H.
  change (requestFor sample.ctx sample.site)
    with (Some (sentRequest (mkRequest sample.ctx MethodGet "https://example.com" ∅))) in H.
  destruct H as (Hw & H0 & Hlo & _); [intros c req w0; cbn; lia|].
  split; [exact H0|]. rewrite Hw in Hlo. exact Hlo.
Defined.

Lemma checkOne_ignores_body_beyond_limit_witness :
  let RT1 := sample.scripted
               (sample.always "200 OK" 200 (sample.longPage "video unavailable")) in
  let RT2 := sample.scripted (sample.always "200 OK" 200 (sample.longPage "!")) in
  let r1 := fst (checkOne (RT := RT1) sample.ctx sample.client sample.site 0 0) in
  let r2 := fst (checkOne (RT := RT2) sample.ctx sample.client sample.site 0 0) in
  Result.OK r1 = Result.OK r2 /\ Result.Error r1 = Result.Error r2.
Proof.
  cbv zeta.
  assert (H1 : maxBodyCheck < len (pending (sample.longPage "video unavailable")))
    by (apply longPage_len; vm_compute; lia).
  assert (H2 : maxBodyCheck < len (pending (sample.longPage "!")))
    by (apply longPage_len; vm_compute; lia).
  assert (H3 : take (Z.to_nat maxBodyCheck) (pending (sample.longPage "video unavailable"))
               = take (Z.to_nat maxBodyCheck) (pending (sample.longPage "!")))
    by (now rewrite !longPage_take).
  exact (checkOne_ignores_body_beyond_limit
           (sample.scripted (sample.always "200 OK" 200 (sample.longPage "video unavailable")))
           (sample.scripted (sample.always "200 OK" 200 (sample.longPage "!")))
           sample.ctx sample.client sample.site 0 0 0
           (mkRequest sample.ctx MethodGet "https://example.com" ∅)
           (mkRequest sample.ctx MethodGet "https://example.com" ∅)
           (mkResponse "200 OK" 200 (sample.longPage "video unavailable"))
           (mkResponse "200 OK" 200 (sample.longPage "!"))
           5500000 5500000 eq_refl eq_refl eq_refl eq_refl
           (eq_refl "200 OK") (eq_refl 200) H1 H2 H3).
Defined.

Lemma checkOne_flags_phrase_in_any_case_witness :
  let RT := sample.scripted
              (sample.always "200 OK" 200 (sample.page "Video UNAVAILABLE" 3000)) in
  let r := fst (checkOne (RT := RT) sample.ctx sample.client sample.site 0 0) in
  Result.OK r = false /\
  Result.Error r = "недоступен (блок по региону или заглушка)".
Proof.
  cbv zeta.
  apply (checkOne_flags_phrase_in_any_case
           (RT := sample.scripted
                    (sample.always "200 OK" 200 (sample.page "Video UNAVAILABLE" 3000)))
           sample.ctx sample.client sample.site 0 0
           (mkRequest sample.ctx MethodGet "https://example.com" ∅)
           (mkResponse "200 OK" 200 (sample.page "Video UNAVAILABLE" 3000))
           5500000
           (list_byte_of_string "Video UNAVAILABLE" ++ repeat "x"%byte 3000)
           "" "Video UNAVAILABLE" (string_of_list_byte (repeat "x"%byte 3000))).
  - exact asciiStrings_lowers_in_place.
  - reflexivity.
  - reflexivity.
  - cbn. lia.
  - vm_compute. reflexivity.
  - vm_compute. discriminate.
  - vm_compute. reflexivity.
  - reflexivity.
  - vm_compute. do 21 right. left. reflexivity.
Defined.

Lemma SiteByURL_inverts_indexing_witness :
  DefaultSites !! 3%nat = Some (mkSite "Google" "https://www.google.com") /\
  SiteByURL "https://www.google.com" = Some 3%nat.
Proof.
  split; [reflexivity|].
  apply (SiteByURL_inverts_indexing 3 (mkSite "Google" "https://www.google.com")).
  reflexivity.
Defined.

Lemma SiteByName_ignores_ASCII_case_witness : SiteByName "yOUTUBE" = Some 4%nat.
Proof.
  apply (SiteByName_ignores_ASCII_case (STR := asciiStrings) "yOUTUBE" 4
           (mkSite "YouTube" "https://www.youtube.com")).
  - intros s _. reflexivity.
  - reflexivity.
  - reflexivity.
  - reflexivity.
Defined.

End sitecheckMore.

(* ===================================================================== *)
(** * More about package main *)
(* ===================================================================== *)

Module mainMore.
Import Go main GoFacts mainFacts.

Lemma SplitN_entry key value :
  hasEq key = false -> SplitN_eq_2_first (key +:+ "=" +:+ value) = key.
Proof.
  induction key as [|c key IH]; intros H.
  - reflexivity.
  - cbn [hasEq] in H. apply orb_false_iff in H as [Hc Hk].
    rewrite append_String. cbn [SplitN_eq_2_first]. rewrite Hc. now rewrite IH.
Qed.

Section More.
Context {STR : Strings} {PF : Platform}.

Lemma rangeEnviron_run entries : forall env tr,
  rangeEnviron entries (mkOS env tr) = (Return tt, mkOS (foldl clearStep env entries) tr).
Proof.
  induction entries as [|entry entries IH]; intros env tr; cbn [rangeEnviron foldl].
  - reflexivity.
  - unfold mbind, Proc_bind, bind, clearStep, devServerKey.
    destruct (HasPrefix _ "WAILS" || HasPrefix _ "VITE"); cbn; apply IH.
Qed.

Lemma clearStep_foldl_kept entries : forall env key,
  devServerKey key = false \/ ~ In key (SplitN_eq_2_first <$> entries) ->
  foldl clearStep env entries !! key = env !! key.
Proof.
  induction entries as [|entry entries IH]; intros env key H; cbn [foldl]; [reflexivity|].
  rewrite IH.
  - unfold clearStep. destruct (devServerKey (SplitN_eq_2_first entry)) eqn:E; [|reflexivity].
    apply lookup_delete_ne. intros Heq. subst key. destruct H as [H|H]; [congruence|].
    apply H. now left.
  - destruct H as [H|H]; [now left|]. right. intros Hin. apply H. now right.
Qed.

Lemma clearStep_foldl_gone entries : forall env key,
  devServerKey key = true -> In key (SplitN_eq_2_first <$> entries) ->
  foldl clearStep env entries !! key = None.
Proof.
  induction entries as [|entry entries IH]; intros env key Hk Hin; cbn [foldl]; [destruct Hin|].
  destruct (in_dec String.string_dec key (SplitN_eq_2_first <$> entries)) as [Hlater|Hnot].
  - now apply IH.
  - rewrite clearStep_foldl_kept by now right.
    destruct Hin as [<-|Hin]; [|contradiction].
    unfold clearStep. rewrite Hk. apply lookup_delete_eq.
Qed.


Lemma clearDevServerEnv_run env tr :
  clearDevServerEnv (mkOS env tr) = (Return tt, mkOS (cleared env) tr).
Proof.
  unfold clearDevServerEnv, bind, os_Environ. cbn [environ]. apply rangeEnviron_run.
Qed.

Lemma cleared_lookup env key
    (Hkeys : forall k v, env !! k = Some v -> hasEq k = false) :
  cleared env !! key = if devServerKey key then None else env !! key.
Proof.
  unfold cleared. destruct (devServerKey key) eqn:Ek.
  - destruct (env !! key) as [v|] eqn:Ev.
    + apply clearStep_foldl_gone; [exact Ek|].
      apply in_map_iff. exists (key +:+ "=" +:+ v). split.
      * apply SplitN_entry. eapply Hkeys, Ev.
      * apply in_map_iff. exists (key, v). split; [reflexivity|].
        apply list_elem_of_In, elem_of_map_to_list, Ev.
    + rewrite clearStep_foldl_kept; [exact Ev|]. right. intros Hin.
      apply in_map_iff in Hin as (entry & Hsplit & Hin).
      apply in_map_iff in Hin as ([k v] & <- & Hin).
      apply list_elem_of_In, elem_of_map_to_list in Hin. cbn [fst snd] in Hsplit.
      rewrite SplitN_entry in Hsplit by (eapply Hkeys, Hin). congruence.
  - apply clearStep_foldl_kept. now left.
Qed.

(** X10.  On an environment whose variable names hold no [=],
    [clearDevServerEnv] returns, makes no call, removes every variable
    whose name starts with WAILS or VITE, and leaves every other variable
    with its value. *)
Theorem clearDevServerEnv_clears os
    (Hkeys : forall k v, environ os !! k = Some v -> hasEq k = false) :
  fst (clearDevServerEnv os) = Return tt /\
  trace (snd (clearDevServerEnv os)) = trace os /\
  forall key,
    environ (snd (clearDevServerEnv os)) !! key
    = if HasPrefix key "WAILS" || HasPrefix key "VITE" then None else environ os !! key.
Proof.
  destruct os as [env tr]. rewrite clearDevServerEnv_run. cbn [fst snd environ trace].
  split; [reflexivity|]. split; [reflexivity|].
  intros key. now apply cleared_lookup.
Qed.

Lemma showUI_settled_value args os :
  (if negb (flagValue (arg_ui args) false) then shouldShowUIFromEnv
   else mret (flagValue (arg_ui args) false)) os = (Return (showUIOf args os), os).
Proof.
  unfold showUIOf. destruct (flagValue (arg_ui args) false); cbn [negb orb]; [reflexivity|].
  destruct (shouldShowUIFromEnv_quiet os) as [b ->]. reflexivity.
Qed.

(** The whole run of [main] in hub mode, the UI decision and the
    environment spelled out. *)
Lemma main_hub_run_explicit args os :
  flagValue (arg_mode args) "standalone" = "hub" ->
  main args os =
    let opts := optionsOf args os "hub" (showUIOf args os) in
    let env := hubEnv args os in
    match RunBackend_returns opts env with
    | Fail err =>
        (Exited 1, mkOS env (trace os ++ [EvRunBackend opts; EvLogFatal err]))
    | Ok grpcServer =>
        if showUIOf args os then
          match app_Run_returns env with
          | Some err =>
              (Exited 1,
               mkOS env (trace os ++ EvRunBackend opts ::
                           EvGoWaitForShutdown grpcServer ::
                           uiEvents ++ [EvLogFatal err]))
          | None =>
              (Return tt,
               mkOS env (trace os ++ EvRunBackend opts ::
                           EvGoWaitForShutdown grpcServer ::
                           uiEvents ++ [EvGracefulStop grpcServer]))
          end
        else
          (Return tt,
           mkOS env (trace os ++ [EvRunBackend opts; EvWaitForShutdown grpcServer]))
    end.
Proof.
  intros Hmode. cbv zeta. apply String.eqb_eq in Hmode.
  unfold main. unfold bind at 1. cbn [os_Getenv]. unfold bind at 1.
  rewrite showUI_settled_value, Hmode. unfold hubEnv.
  fold (optionsOf args os "hub" (showUIOf args os)).
  destruct (showUIOf args os).
  - unfold mbind at 1, Proc_bind at 1, bind at 1.
    unfold mbind at 1, Proc_bind at 1, bind at 1.
    destruct os as [env tr]. rewrite clearDevServerEnv_run.
    unfold mbind, Proc_bind, bind, os_Setenv, RunBackend, mbind, Proc_bind, bind,
      emit, ask.
    cbn [environ trace].
    destruct (RunBackend_returns _ _) as [srv|err].
    + unfold go_waitForShutdown, GracefulStop, emit. cbn [environ trace].
      rewrite runWailsUI_run.
      destruct (app_Run_returns _); cbn [environ trace mret Proc_ret];
        repeat rewrite <- app_assoc; reflexivity.
    + unfold log_Fatal. cbn [environ trace]. now rewrite <- app_assoc.
  - destruct os as [env tr].
    unfold mbind, Proc_bind, bind, mret, Proc_ret, RunBackend, mbind, Proc_bind, bind,
      emit, ask, waitForShutdown, emit, log_Fatal.
    cbn [environ trace].
    destruct (RunBackend_returns _ _) as [srv|err]; cbn [environ trace];
      now rewrite <- app_assoc.
Qed.

Lemma main_environ args os :
  environ (snd (main args os))
  = if String.eqb (flagValue (arg_mode args) "standalone") "hub"
    then hubEnv args os else environ os.
Proof.
  destruct (String.eqb_spec (flagValue (arg_mode args) "standalone") "hub") as [Hhub|Hne].
  - rewrite (main_hub_run_explicit args os Hhub). cbv zeta.
    destruct (RunBackend_returns _ _); [destruct (showUIOf args os);
      [destruct (app_Run_returns _)|]|]; reflexivity.
  - rewrite (main_standalone_run args os Hne). cbv zeta.
    destruct (RunBackend_returns _ _); [destruct (app_Run_returns _)|]; reflexivity.
Qed.

(** X11.  In hub mode with the UI, the environment [main] ends with
    (and calls [RunBackend] in) has WAILS_ENV set to production, the four
    development-server variables set to the empty text, no other variable
    whose name starts with WAILS or VITE, and every other variable as at
    start-up. *)
Theorem main_hub_ui_environment args os
    (Hmode : flagValue (arg_mode args) "standalone" = "hub")
    (Hui : showUIOf args os = true)
    (Hkeys : forall k v, environ os !! k = Some v -> hasEq k = false) :
  let env := environ (snd (main args os)) in
  env !! "WAILS_ENV" = Some "production" /\
  env !! "WAILS_DEV_SERVER_URL" = Some "" /\
  env !! "WAILS_VITE_DEV_SERVER_URL" = Some "" /\
  env !! "WAILS_DEVSERVER_URL" = Some "" /\
  env !! "VITE_DEV_SERVER_URL" = Some "" /\
  forall key,
    key <> "WAILS_ENV" -> key <> "WAILS_DEV_SERVER_URL" ->
    key <> "WAILS_VITE_DEV_SERVER_URL" -> key <> "WAILS_DEVSERVER_URL" ->
    key <> "VITE_DEV_SERVER_URL" ->
    env !! key
    = if HasPrefix key "WAILS" || HasPrefix key "VITE" then None else environ os !! key.
Proof.
  cbv zeta. rewrite main_environ. apply String.eqb_eq in Hmode. rewrite Hmode.
  unfold hubEnv. rewrite Hui.
  repeat split.
  1-5: repeat first [ apply lookup_insert_eq | rewrite lookup_insert_ne by discriminate ].
  intros key H1 H2 H3 H4 H5.
  rewrite !lookup_insert_ne by congruence. now apply cleared_lookup.
Qed.

(** X12.  Outside hub mode, and in hub mode without the UI, [main]
    leaves the environment as it found it. *)
Theorem main_environment_untouched args os
    (Hcase : flagValue (arg_mode args) "standalone" <> "hub" \/ showUIOf args os = false) :
  environ (snd (main args os)) = environ os.
Proof.
  rewrite main_environ.
  destruct (String.eqb_spec (flagValue (arg_mode args) "standalone") "hub") as [Hhub|Hne];
    [|reflexivity].
  destruct Hcase as [H|H]; [contradiction|]. unfold hubEnv. now rewrite H.
Qed.


(** X13.  In hub mode [main] starts the backend with [StartHTTP] equal
    to its decision about the UI (the [ui] flag, else NEKKUS_SHOW_UI).
    What follows the call, in this order: when the UI runs, the decision
    was yes and the wait for shutdown was started in the background
    before the window was made; when [main] waits for the shutdown in
    the foreground, the decision was no and nothing else follows; when
    the server is stopped gracefully, that is the last event, after the
    background wait was started and then the UI ran, and [main] returns
    normally. *)
Theorem main_hub_http_follows_ui args os
    (Hmode : flagValue (arg_mode args) "standalone" = "hub") :
  exists opts after,
    trace (snd (main args os)) = trace os ++ EvRunBackend opts :: after /\
    StartHTTP opts = showUIOf args os /\
    (In EvAppRun after ->
       showUIOf args os = true /\
       exists grpcServer rest,
         after = EvGoWaitForShutdown grpcServer :: uiEvents ++ rest) /\
    (forall grpcServer,
       In (EvWaitForShutdown grpcServer) after ->
       showUIOf args os = false /\ after = [EvWaitForShutdown grpcServer]) /\
    (forall grpcServer,
       In (EvGracefulStop grpcServer) after ->
       after = EvGoWaitForShutdown grpcServer :: uiEvents ++ [EvGracefulStop grpcServer] /\
       fst (main args os) = Return tt).
Proof.
  rewrite (main_hub_run_explicit args os Hmode). cbv zeta.
  exists (optionsOf args os "hub" (showUIOf args os)).
  destruct (RunBackend_returns _ _) as [srv|err];
    [destruct (showUIOf args os); [destruct (app_Run_returns _) as [err|]|]|];
    cbn [fst snd trace]; eexists; (split; [reflexivity|]);
    (split; [reflexivity|]); unfold uiEvents; cbn [app In]; (split; [|split]).
  - intros _. split; [reflexivity|]. now exists srv, [EvLogFatal err].
  - intros g H. exfalso. intuition congruence.
  - intros g H. exfalso. intuition congruence.
  - intros _. split; [reflexivity|]. now exists srv, [EvGracefulStop srv].
  - intros g H. exfalso. intuition congruence.
  - intros g H. assert (g = srv) as -> by intuition congruence. now split.
  - intros H. exfalso. intuition congruence.
  - intros g H. assert (g = srv) as -> by intuition congruence. now split.
  - intros g H. exfalso. intuition congruence.
  - intros H. exfalso. intuition congruence.
  - intros g H. exfalso. intuition congruence.
  - intros g H. exfalso. intuition congruence.
Qed.

(** X14.  When the call of [RunBackend] that [main] makes fails, in
    either mode, [main] logs that error and exits with status 1 right
    after the call: it creates no window and waits for nothing.  The
    call is the one in the trace, with the options recorded there;
    [main] sets no variable after it, so the environment [main] ends
    with is the one of the call. *)
Theorem main_backend_failure_is_fatal args os opts after err
    (Hcall : trace (snd (main args os)) = trace os ++ EvRunBackend opts :: after)
    (Hfail : RunBackend_returns opts (environ (snd (main args os))) = Fail err) :
  fst (main args os) = Exited 1 /\ after = [EvLogFatal err].
Proof.
  revert Hcall Hfail.
  destruct (String.eqb_spec (flagValue (arg_mode args) "standalone") "hub") as [Hhub|Hne].
  - rewrite (main_hub_run_explicit args os Hhub). cbv zeta.
    destruct (RunBackend_returns _ _) as [srv|e] eqn:E;
      [destruct (showUIOf args os); [destruct (app_Run_returns _)|]|];
      cbn [fst snd trace environ]; intros Hcall Hfail;
      apply app_inv_head in Hcall; injection Hcall as <- <-;
      rewrite E in Hfail; try discriminate Hfail.
    injection Hfail as ->. now split.
  - rewrite (main_standalone_run args os Hne). cbv zeta.
    destruct (RunBackend_returns _ _) as [srv|e] eqn:E;
      [destruct (app_Run_returns _)|];
      cbn [fst snd trace environ]; intros Hcall Hfail;
      apply app_inv_head in Hcall; injection Hcall as <- <-;
      rewrite E in Hfail; try discriminate Hfail.
    injection Hfail as ->. now split.
Qed.

(** X15.  When a run of [main] reached [app.Run] and that call failed,
    the run ends with that error logged right after the call and with
    exit status 1, and the server is not stopped gracefully, in hub mode
    either.  [main] sets no variable after the backend was started, so
    the environment it ends with is the one [app.Run] ran in. *)
Theorem main_ui_failure_is_fatal args os events err
    (Htrace : trace (snd (main args os)) = trace os ++ events)
    (Hrun : In EvAppRun events)
    (Hfail : app_Run_returns (environ (snd (main args os))) = Some err) :
  fst (main args os) = Exited 1 /\
  (exists before, events = before ++ [EvAppRun; EvLogFatal err]) /\
  forall grpcServer, ~ In (EvGracefulStop grpcServer) events.
Proof.
  revert Htrace Hfail.
  destruct (String.eqb_spec (flagValue (arg_mode args) "standalone") "hub") as [Hhub|Hne].
  - rewrite (main_hub_run_explicit args os Hhub). cbv zeta.
    destruct (RunBackend_returns _ _) as [srv|e];
      [destruct (showUIOf args os); [destruct (app_Run_returns _) as [e|] eqn:E|]|];
      cbn [fst snd trace environ]; intros Htrace Hfail;
      apply app_inv_head in Htrace; subst events; unfold uiEvents in *; cbn [app In] in *.
    + rewrite E in Hfail. injection Hfail as ->. split; [reflexivity|]. split.
      * now eexists [_; _; _; _; _].
      * intros g H. intuition congruence.
    + rewrite E in Hfail. discriminate Hfail.
    + exfalso. intuition congruence.
    + exfalso. intuition congruence.
  - rewrite (main_standalone_run args os Hne). cbv zeta.
    destruct (RunBackend_returns _ _) as [srv|e];
      [destruct (app_Run_returns _) as [e|] eqn:E|];
      cbn [fst snd trace environ]; intros Htrace Hfail;
      apply app_inv_head in Htrace; subst events; unfold uiEvents in *; cbn [app In] in *.
    + rewrite E in Hfail. injection Hfail as ->. split; [reflexivity|]. split.
      * now eexists [_; _; _; _].
      * intros g H. intuition congruence.
    + rewrite E in Hfail. discriminate Hfail.
    + exfalso. intuition congruence.
Qed.

(** X16.  Hub mode is headless by default.  With [strings.ToLower] and
    [strings.TrimSpace] keeping the empty text, no [ui] flag, and
    NEKKUS_SHOW_UI unset or empty, [main] in hub mode starts the backend
    with [StartHTTP] false in the unchanged environment and then waits for
    the shutdown, or logs the error of the backend and exits with
    status 1; it creates no window. *)
Theorem main_hub_headless_by_default args os
    (Hlower : ToLower "" = "") (Htrim : TrimSpace "" = "")
    (Hmode : flagValue (arg_mode args) "standalone" = "hub")
    (Hflag : arg_ui args = None)
    (Henv : default "" (environ os !! "NEKKUS_SHOW_UI") = "") :
  let opts := optionsOf args os "hub" false in
  main args os =
    match RunBackend_returns opts (environ os) with
    | Fail err =>
        (Exited 1, mkOS (environ os) (trace os ++ [EvRunBackend opts; EvLogFatal err]))
    | Ok grpcServer =>
        (Return tt,
         mkOS (environ os) (trace os ++ [EvRunBackend opts; EvWaitForShutdown grpcServer]))
    end.
Proof.
  assert (Hshow : showUIOf args os = false).
  { unfold showUIOf, shouldShowUIFromEnv, bind, os_Getenv. rewrite Hflag.
    cbn [flagValue default orb].
    rewrite Henv, Hlower, Htrim. reflexivity. }
  rewrite (main_hub_run_explicit args os Hmode). cbv zeta. unfold hubEnv. rewrite Hshow.
  reflexivity.
Qed.

End More.
(** ** Runs on concrete inputs *)

#[local] Existing Instance asciiStrings.

Lemma devShell_names k v :
  environ sample.devShell !! k = Some v -> hasEq k = false.
Proof.
  intros H. apply elem_of_map_to_list in H. vm_compute in H.
  repeat (apply elem_of_cons in H as [H|H]; [injection H as -> ->; reflexivity|]).
  inversion H.
Qed.

Lemma clearDevServerEnv_clears_witness :
  let env := environ (snd (clearDevServerEnv sample.devShell)) in
  env !! "VITE_MODE" = None /\ env !! "WAILS_VITE_PORT" = None /\
  env !! "PATH" = Some "/usr/bin".
Proof.
  cbv zeta.
  destruct (clearDevServerEnv_clears sample.devShell devShell_names) as (_ & _ & H).
  rewrite !H. repeat split.
Defined.

Lemma main_hub_ui_environment_witness :
  let env := environ (snd (main (PF := sample.platform) sample.hubWithUI sample.devShell)) in
  env !! "WAILS_ENV" = Some "production" /\ env !! "VITE_DEV_SERVER_URL" = Some "" /\
  env !! "VITE_MODE" = None /\ env !! "PATH" = Some "/usr/bin".
Proof.
  cbv zeta.
  destruct (main_hub_ui_environment (PF := sample.platform) sample.hubWithUI sample.devShell
              eq_refl eq_refl devShell_names) as (H1 & _ & _ & _ & H5 & H).
  split; [exact H1|]. split; [exact H5|].
  rewrite !H by discriminate. split; [reflexivity | vm_compute; reflexivity].
Defined.

Lemma main_environment_untouched_witness :
  environ (snd (main (PF := sample.platform) (sample.onlyMode "standalone") sample.devShell))
  = environ sample.devShell.
Proof.
  apply (main_environment_untouched (PF := sample.platform)).
  left. discriminate.
Defined.

Lemma main_hub_http_follows_ui_witness :
  exists opts after,
    trace (snd (main (PF := sample.platform) sample.hubWithUI sample.bare))
      = EvRunBackend opts :: after /\
    StartHTTP opts = true.
Proof.
  destruct (main_hub_http_follows_ui (PF := sample.platform) sample.hubWithUI sample.bare
              eq_refl) as (opts & after & Htrace & Hhttp & _).
  exists opts, after. split; [exact Htrace | exact Hhttp].
Defined.

Lemma main_backend_failure_is_fatal_witness :
  fst (main (PF := sample.noBackend) sample.hubWithUI sample.bare) = Exited 1.
Proof.
  refine (proj1 (main_backend_failure_is_fatal (PF := sample.noBackend)
                   sample.hubWithUI sample.bare
                   (mkBackendOptions "hub" "127.0.0.1:50051" "127.0.0.1:8080"
                      "data" "" "net" "0.1.0" true)
                   [EvLogFatal (errors_New "listen: address in use")]
                   (errors_New "listen: address in use") _ _)).
  - vm_compute. reflexivity.
  - reflexivity.
Defined.

Lemma main_ui_failure_is_fatal_witness :
  fst (main (PF := sample.noUI) sample.hubWithUI sample.bare) = Exited 1 /\
  forall grpcServer,
    ~ In (EvGracefulStop grpcServer)
        (trace (snd (main (PF := sample.noUI) sample.hubWithUI sample.bare))).
Proof.
  destruct (main_ui_failure_is_fatal (PF := sample.noUI) sample.hubWithUI sample.bare
              (trace (snd (main (PF := sample.noUI) sample.hubWithUI sample.bare)))
              (errors_New "no display")) as (Hexit & _ & Hstop).
  - reflexivity.
  - vm_compute. tauto.
  - reflexivity.
  - split; [exact Hexit | exact Hstop].
Defined.

Lemma main_hub_headless_by_default_witness :
  main (PF := sample.platform) (sample.onlyMode "hub") sample.bare
  = (Return tt,
     mkOS ∅ [EvRunBackend (mkBackendOptions "hub" "127.0.0.1:50051" "127.0.0.1:8080"
                              "data" "" "net" "0.1.0" false);
             EvWaitForShutdown 1]).
Proof.
  rewrite (main_hub_headless_by_default (STR := asciiStrings) (PF := sample.platform)
             (sample.onlyMode "hub") sample.bare eq_refl eq_refl eq_refl eq_refl eq_refl).
  reflexivity.
Defined.

End mainMore.

(* ===================================================================== *)
(** * More about the Windows process hook *)
(* ===================================================================== *)

Module vpnMore.
Import syscall exec vpn.

(** X17.  Calling [setProcessNoWindow] again on the same command
    changes nothing more, and calls on two commands give the same store
    in either order. *)
Theorem setProcessNoWindow_idempotent_commutes (heap : gmap nat Cmd) cmd cmd' :
  setProcessNoWindow cmd (setProcessNoWindow cmd heap) = setProcessNoWindow cmd heap /\
  setProcessNoWindow cmd (setProcessNoWindow cmd' heap)
  = setProcessNoWindow cmd' (setProcessNoWindow cmd heap).
Proof.
  split.
  - destruct cmd as [addr|]; [|reflexivity]. cbn [setProcessNoWindow].
    apply map_eq. intros a. destruct (decide (a = addr)) as [->|Hne].
    + rewrite !lookup_alter_eq. now destruct (heap !! addr).
    + now rewrite !lookup_alter_ne.
  - destruct cmd as [a1|], cmd' as [a2|]; try reflexivity. cbn [setProcessNoWindow].
    apply map_eq. intros a.
    destruct (decide (a = a1)) as [E1|H1]; destruct (decide (a = a2)) as [E2|H2]; subst;
      repeat first [ rewrite lookup_alter_eq | rewrite lookup_alter_ne by congruence ];
      reflexivity.
Qed.

(** X18.  [setProcessNoWindow] neither adds a command to the store nor
    removes one: the addresses that hold a command are the same before
    and after. *)
Theorem setProcessNoWindow_keeps_commands (heap : gmap nat Cmd) cmd :
  dom (setProcessNoWindow cmd heap) = dom heap /\
  forall addr, heap !! addr = None -> setProcessNoWindow cmd heap !! addr = None.
Proof.
  destruct cmd as [a|]; cbn [setProcessNoWindow]; [|split; [reflexivity | auto]].
  split.
  - apply dom_alter_L.
  - intros addr H. destruct (decide (addr = a)) as [->|Hne].
    + now rewrite lookup_alter_eq, H.
    + now rewrite lookup_alter_ne.
Qed.

End vpnMore.
